(** * JSX component vector manager: a shallow embedding

    Model of [jsx_vector/jsx_vector_manager.py] (class [JSXVectorManager]):
    the pattern extractors, the classifier, the metadata synthesizer, the
    key sanitizer, the document assembler, batch ingestion and search.

    Conventions.
    - A Python [str] is a list of Unicode code points ([pystr]).
    - Counts ([str.count], [len]) are [nat]; other Python ints are [Z].
    - Python floats are IEEE binary64 values ([PrimFloat.float]).
    - A Python call that may raise is a computation returning [Res]; the
      exceptions are those an [except Exception] clause catches.
    - [print] always succeeds; what is printed is kept, with the requests
      sent to the services, in the trace of the run. *)

From Stdlib Require Import String Ascii List NArith ZArith Lia Bool.
From Stdlib Require Import Floats Uint63 DecimalString.
Import ListNotations.

Set Implicit Arguments.

(** ** Python strings *)

Module PyStr.

Definition pystr := list N.

(** An ASCII literal as a Python string. *)
Definition py (s : string) : pystr := map N_of_ascii (list_ascii_of_string s).
Arguments py s%_string.

Definition eqb (a b : pystr) : bool :=
  if list_eq_dec N.eq_dec a b then true else false.

(** [s.startswith(sub)] *)
Fixpoint starts_with (sub s : pystr) : bool :=
  match sub, s with
  | [], _ => true
  | _ :: _, [] => false
  | a :: sub', b :: s' => N.eqb a b && starts_with sub' s'
  end.

(** [s.endswith(sub)] *)
Definition ends_with (sub s : pystr) : bool :=
  starts_with (rev sub) (rev s).

(** [sub in s] *)
Fixpoint contains (sub s : pystr) : bool :=
  starts_with sub s ||
  match s with
  | [] => false
  | _ :: s' => contains sub s'
  end.

(** [s.count(sub)]: occurrences are counted from left to right and do not
    overlap; after a match the scan resumes behind it.  [skip] is the number
    of characters of the last match still to be stepped over. *)
Fixpoint count_from (sub : pystr) (skip : nat) (s : pystr) : nat :=
  match s with
  | [] => 0
  | _ :: s' =>
      match skip with
      | S k => count_from sub k s'
      | O =>
          if starts_with sub s
          then S (count_from sub (length sub - 1) s')
          else count_from sub 0 s'
      end
  end.

Definition count (sub s : pystr) : nat :=
  match sub with
  | [] => S (length s)
  | _ => count_from sub 0 s
  end.

(** [s.replace(old, new)] for a non-empty [old]. *)
Fixpoint replace_from (old new : pystr) (skip : nat) (s : pystr) : pystr :=
  match s with
  | [] => []
  | c :: s' =>
      match skip with
      | S k => replace_from old new k s'
      | O =>
          if starts_with old s
          then new ++ replace_from old new (length old - 1) s'
          else c :: replace_from old new 0 s'
      end
  end.

Definition replace (old new s : pystr) : pystr := replace_from old new 0 s.

(** [sep.join(parts)] *)
Fixpoint join (sep : pystr) (parts : list pystr) : pystr :=
  match parts with
  | [] => []
  | [p] => p
  | p :: rest => p ++ sep ++ join sep rest
  end.

(** [str(n)] for an int. *)
Definition str_of_Z (z : Z) : pystr := py (NilZero.string_of_int (Z.to_int z)).
Definition str_of_nat (n : nat) : pystr := str_of_Z (Z.of_nat n).

(** [s[:n] if len(s) > n else s] *)
Definition truncate (n : nat) (s : pystr) : pystr :=
  if n <? length s then firstn n s else s.

(** [s.lstrip(ch)], [s.rstrip(ch)], [s.strip(ch)] for a one-character set. *)
Fixpoint lstrip (ch : N) (s : pystr) : pystr :=
  match s with
  | [] => []
  | c :: s' => if N.eqb c ch then lstrip ch s' else s
  end.

Definition rstrip (ch : N) (s : pystr) : pystr := rev (lstrip ch (rev s)).

Definition strip (ch : N) (s : pystr) : pystr := rstrip ch (lstrip ch s).

(** *** Case folding

    [str.lower] maps the ASCII capitals to the ASCII small letters and leaves
    the other ASCII characters alone.  What it does to a character outside
    ASCII is decided by the Unicode tables of the interpreter (and, for the
    capital sigma, by its neighbours); the model takes that part as
    [unicode_lower before_rev c after], where [before_rev] is the text
    already scanned, last character first, and [after] the text to come. *)

Definition is_ascii_upper (c : N) : bool := (65 <=? c)%N && (c <=? 90)%N.

Definition ascii_lower (c : N) : N :=
  if is_ascii_upper c then (c + 32)%N else c.

Section Lower.
Variable unicode_lower : pystr -> N -> pystr -> pystr.

Definition lower_char (before_rev : pystr) (c : N) (after : pystr) : pystr :=
  if (c <? 128)%N then [ascii_lower c] else unicode_lower before_rev c after.

Fixpoint lower_from (before_rev s : pystr) : pystr :=
  match s with
  | [] => []
  | c :: s' => lower_char before_rev c s' ++ lower_from (c :: before_rev) s'
  end.

Definition lower (s : pystr) : pystr := lower_from [] s.
End Lower.

End PyStr.
Import PyStr.

(** ** Values of the Python standard library the manager relies on

    The regular-expression engine, the iteration order of a [set] and the
    JSON printer belong to the interpreter, not to the repository; the
    extractors that use them take them from a [PyLib]. *)

Unset Elimination Schemes.
Inductive json :=
| JStr (s : pystr)
| JList (items : list json)
| JObj (fields : list (pystr * json)).
Set Elimination Schemes.

Record PyLib := {
  (** what [str.lower] does to a character outside ASCII *)
  unicode_lower : pystr -> N -> pystr -> pystr;
  (** [re.findall(pattern, s)] for a pattern with at most one group *)
  re_findall : pystr -> pystr -> list pystr;
  (** [list(set(xs))] *)
  list_of_set : list pystr -> list pystr;
  (** [json.dumps(v)] *)
  json_dumps : json -> pystr
}.

Definition str_lower (L : PyLib) (s : pystr) : pystr :=
  lower (unicode_lower L) s.

(** [float(n)] for a count.  A count is bounded by the length of a string,
    which is below 2^63, where [Uint63.of_Z] is exact. *)
Definition float_of_count (n : nat) : float :=
  PrimFloat.of_uint63 (Uint63.of_Z (Z.of_nat n)).

(** The double nearest to 0.3, 0.2, 0.8 and 0.6: what the Python literals
    denote. *)
Definition f0_3 : float := 0x1.3333333333333p-2%float.
Definition f0_2 : float := 0x1.999999999999ap-3%float.
Definition f0_8 : float := 0x1.999999999999ap-1%float.
Definition f0_6 : float := 0x1.3333333333333p-1%float.

(** ** The extracted profile *)

Inductive Category :=
| image_focused | text_focused | mixed | card_based | list_based | dashboard.

Definition category_str (c : Category) : pystr :=
  match c with
  | image_focused => py "image_focused"
  | text_focused => py "text_focused"
  | mixed => py "mixed"
  | card_based => py "card_based"
  | list_based => py "list_based"
  | dashboard => py "dashboard"
  end.

Inductive Arrangement :=
| arr_grid | arr_flex | arr_single | arr_gallery | arr_multiple.

Definition arrangement_str (a : Arrangement) : pystr :=
  match a with
  | arr_grid => py "grid"
  | arr_flex => py "flex"
  | arr_single => py "single"
  | arr_gallery => py "gallery"
  | arr_multiple => py "multiple"
  end.

Inductive Sizing := size_responsive | size_aspect_ratio | size_fixed.

Definition sizing_str (s : Sizing) : pystr :=
  match s with
  | size_responsive => py "responsive"
  | size_aspect_ratio => py "aspect_ratio"
  | size_fixed => py "fixed"
  end.

Inductive Alignment := align_center | align_right | align_left.

Definition alignment_str (a : Alignment) : pystr :=
  match a with
  | align_center => py "center"
  | align_right => py "right"
  | align_left => py "left"
  end.

Inductive LayoutMethod := lay_grid | lay_flexbox | lay_absolute | lay_block.

Definition layout_method_str (m : LayoutMethod) : pystr :=
  match m with
  | lay_grid => py "grid"
  | lay_flexbox => py "flexbox"
  | lay_absolute => py "absolute"
  | lay_block => py "block"
  end.

Inductive ResponsiveStrategy := strat_responsive | strat_fixed.

Definition responsive_str (r : ResponsiveStrategy) : pystr :=
  match r with
  | strat_responsive => py "responsive"
  | strat_fixed => py "fixed"
  end.

Inductive ChildrenStructure := child_single | child_nested | child_conditional.

Definition children_structure_str (c : ChildrenStructure) : pystr :=
  match c with
  | child_single => py "single"
  | child_nested => py "nested"
  | child_conditional => py "conditional"
  end.

Inductive ExportPattern := default_export | named_export.

Definition export_str (e : ExportPattern) : pystr :=
  match e with
  | default_export => py "default_export"
  | named_export => py "named_export"
  end.

Inductive Complexity := simple | moderate | complex.

Definition complexity_str (c : Complexity) : pystr :=
  match c with
  | simple => py "simple"
  | moderate => py "moderate"
  | complex => py "complex"
  end.

Record ImagePatterns := {
  img_count : nat;
  img_arrangement : Arrangement;
  img_sizing : Sizing
}.

Record TextPatterns := {
  txt_hierarchy : list pystr;
  txt_typography : list pystr;
  txt_alignment : Alignment
}.

Record LayoutPatterns := {
  lay_method : LayoutMethod;
  lay_responsive : ResponsiveStrategy
}.

Record TailwindPatterns := {
  tw_colors : list pystr;
  tw_spacing : list pystr;
  tw_responsive : list pystr
}.

Record Structure := {
  component_type : pystr;
  hooks_used : list pystr;
  props_pattern : pystr;
  children_structure : ChildrenStructure
}.

Record CodePatterns := {
  code_imports : list pystr;
  code_export : ExportPattern
}.

Record Metadata := {
  meta_complexity : Complexity;
  meta_reusability : float;
  meta_mobile_optimized : bool
}.

Record Analysis := {
  an_category : Category;
  an_images : ImagePatterns;
  an_text : TextPatterns;
  an_layout : LayoutPatterns;
  an_tailwind : TailwindPatterns;
  an_structure : Structure;
  an_code : CodePatterns;
  an_metadata : Metadata;
  an_keywords : pystr
}.

(** ** Pattern extractors, classifier and metadata synthesizer *)

Section Extractors.
Variable L : PyLib.

(** [_classify_component_category] *)
Definition _classify_component_category (component_name jsx_code : pystr)
  : Category :=
  let name_lower := str_lower L component_name in
  if contains (py "image") name_lower then image_focused
  else if contains (py "text") name_lower then text_focused
  else if contains (py "mixed") name_lower then mixed
  else if contains (py "card") name_lower then card_based
  else if contains (py "list") name_lower then list_based
  else if contains (py "dashboard") name_lower then dashboard
  else
    let img_count := count (py "<img") jsx_code in
    let text_elements :=
      count (py "<h1") jsx_code + count (py "<h2") jsx_code
      + count (py "<p") jsx_code in
    if text_elements <? img_count then image_focused
    else if img_count * 2 <? text_elements then text_focused
    else mixed.

(** [_analyze_image_patterns] *)
Definition _analyze_image_patterns (jsx_code : pystr) : ImagePatterns :=
  let img_count := count (py "<img") jsx_code in
  let arrangement :=
    if contains (py "grid") (str_lower L jsx_code) then arr_grid
    else if contains (py "flex") (str_lower L jsx_code) && (1 <? img_count)
    then arr_flex
    else if img_count =? 1 then arr_single
    else if 3 <? img_count then arr_gallery
    else arr_multiple in
  let sizing :=
    if contains (py "width: '100%'") jsx_code then size_responsive
    else if contains (py "aspect-") jsx_code then size_aspect_ratio
    else size_fixed in
  {| img_count := img_count;
     img_arrangement := arrangement;
     img_sizing := sizing |}.

(** [if cond: xs.append(x)] *)
Definition append_if (cond : bool) (x : pystr) (xs : list pystr) : list pystr :=
  if cond then xs ++ [x] else xs.

(** The double quote, which a literal of this file cannot hold. *)
Definition dquote : pystr := [34%N].

(** The raw pattern [<key>: Q([^Q]+)Q], where the class [Q] holds the single
    and the double quote, the single one written with a backslash. *)
Definition quoted_value_pattern (key : pystr) : pystr :=
  key ++ py ": [\'" ++ dquote ++ py "]([^\'" ++ dquote ++ py "]+)[\'"
      ++ dquote ++ py "]".

(** [_analyze_text_patterns] *)
Definition _analyze_text_patterns (jsx_code : pystr) : TextPatterns :=
  let hierarchy := [] in
  let hierarchy := append_if (contains (py "<h1") jsx_code) (py "h1") hierarchy in
  let hierarchy := append_if (contains (py "<h2") jsx_code) (py "h2") hierarchy in
  let hierarchy := append_if (contains (py "<h3") jsx_code) (py "h3") hierarchy in
  let hierarchy := append_if (contains (py "<p") jsx_code) (py "p") hierarchy in
  let typography_matches :=
    re_findall L (quoted_value_pattern (py "fontSize")) jsx_code in
  let typography := list_of_set L typography_matches in
  let alignment :=
    if contains (py "textAlign: 'center'") jsx_code then align_center
    else if contains (py "textAlign: 'right'") jsx_code then align_right
    else align_left in
  {| txt_hierarchy := hierarchy;
     txt_typography := typography;
     txt_alignment := alignment |}.

(** [_analyze_layout_patterns] *)
Definition _analyze_layout_patterns (jsx_code : pystr) : LayoutPatterns :=
  let method :=
    if contains (py "display: 'grid'") jsx_code then lay_grid
    else if contains (py "display: 'flex'") jsx_code then lay_flexbox
    else if contains (py "position: 'absolute'") jsx_code then lay_absolute
    else lay_block in
  let responsive :=
    if contains (py "@media") jsx_code
       || contains (py "responsive") (str_lower L jsx_code)
    then strat_responsive
    else strat_fixed in
  {| lay_method := method; lay_responsive := responsive |}.

(** [_analyze_tailwind_patterns] *)
Definition _analyze_tailwind_patterns (jsx_code : pystr) : TailwindPatterns :=
  let color_matches :=
    re_findall L (quoted_value_pattern (py "color")) jsx_code in
  let background_matches :=
    re_findall L (quoted_value_pattern (py "backgroundColor")) jsx_code in
  let colors := [] ++ (color_matches ++ background_matches) in
  let spacing_matches :=
    re_findall L (quoted_value_pattern (py "(?:padding|margin)")) jsx_code in
  let spacing := [] ++ spacing_matches in
  {| tw_colors := list_of_set L colors;
     tw_spacing := list_of_set L spacing;
     tw_responsive := [] |}.

(** [_analyze_jsx_structure] *)
Definition _analyze_jsx_structure (jsx_code : pystr) : Structure :=
  let hooks := [] in
  let hooks := append_if (contains (py "useState") jsx_code) (py "useState") hooks in
  let hooks := append_if (contains (py "useEffect") jsx_code) (py "useEffect") hooks in
  let hooks := append_if (contains (py "memo") jsx_code) (py "memo") hooks in
  let children :=
    if 3 <? count (py "<div") jsx_code then child_nested
    else if contains (py "?") jsx_code && contains (py ":") jsx_code
    then child_conditional
    else child_single in
  {| component_type := py "functional";
     hooks_used := hooks;
     props_pattern := py "simple";
     children_structure := children |}.

(** [_analyze_code_patterns] *)
Definition _analyze_code_patterns (jsx_code : pystr) : CodePatterns :=
  let import_matches := re_findall L (py "import[^;]+;") jsx_code in
  let imports := [] ++ import_matches in
  let export_pattern :=
    if contains (py "export default") jsx_code then default_export
    else named_export in
  {| code_imports := imports; code_export := export_pattern |}.

(** The local [complexity_score] of [_generate_component_metadata]: each
    count is converted to a double and the sum is taken from left to
    right. *)
Definition complexity_score (jsx_code : pystr) : float :=
  (float_of_count (count (py "<div") jsx_code) * 0.5
   + float_of_count (count (py "<img") jsx_code) * 1.0
   + float_of_count (count (py "style=") jsx_code) * f0_3
   + float_of_count (count (py "className=") jsx_code) * f0_2)%float.

Definition complexity_of_score (score : float) : Complexity :=
  if (score <? 5)%float then simple
  else if (score <? 15)%float then moderate
  else complex.

(** [_generate_component_metadata] *)
Definition _generate_component_metadata (jsx_code : pystr) (category : Category)
  : Metadata :=
  let complexity := complexity_of_score (complexity_score jsx_code) in
  let reusability :=
    match category with
    | image_focused | text_focused => f0_8
    | _ => f0_6
    end in
  let mobile_optimized :=
    contains (py "responsive") (str_lower L jsx_code)
    || contains (py "mobile") (str_lower L jsx_code) in
  {| meta_complexity := complexity;
     meta_reusability := reusability;
     meta_mobile_optimized := mobile_optimized |}.

(** [_generate_search_keywords] *)
Definition _generate_search_keywords (category : Category)
    (image_patterns : ImagePatterns) (text_patterns : TextPatterns)
    (layout_patterns : LayoutPatterns) : pystr :=
  let keywords :=
    [ category_str category;
      py "images_" ++ str_of_nat (img_count image_patterns);
      arrangement_str (img_arrangement image_patterns);
      layout_method_str (lay_method layout_patterns);
      alignment_str (txt_alignment text_patterns) ] in
  let keywords := keywords ++ txt_hierarchy text_patterns in
  join (py " ") keywords.

(** [_extract_jsx_patterns] *)
Definition _extract_jsx_patterns (jsx_code component_name : pystr) : Analysis :=
  let category := _classify_component_category component_name jsx_code in
  let image_patterns := _analyze_image_patterns jsx_code in
  let text_patterns := _analyze_text_patterns jsx_code in
  let layout_patterns := _analyze_layout_patterns jsx_code in
  let tailwind_patterns := _analyze_tailwind_patterns jsx_code in
  let structure_patterns := _analyze_jsx_structure jsx_code in
  let code_patterns := _analyze_code_patterns jsx_code in
  let metadata := _generate_component_metadata jsx_code category in
  let keywords :=
    _generate_search_keywords category image_patterns text_patterns
      layout_patterns in
  {| an_category := category;
     an_images := image_patterns;
     an_text := text_patterns;
     an_layout := layout_patterns;
     an_tailwind := tailwind_patterns;
     an_structure := structure_patterns;
     an_code := code_patterns;
     an_metadata := metadata;
     an_keywords := keywords |}.

End Extractors.

(** [_create_jsx_embedding_text] *)
Definition _create_jsx_embedding_text (analysis : Analysis) : pystr :=
  let embedding_components :=
    [ py "Component category: " ++ category_str (an_category analysis);
      py "Layout method: "
        ++ layout_method_str (lay_method (an_layout analysis));
      py "Images: " ++ str_of_nat (img_count (an_images analysis)) ++ py " "
        ++ arrangement_str (img_arrangement (an_images analysis));
      py "Text hierarchy: "
        ++ join (py " ") (txt_hierarchy (an_text analysis));
      py "Responsive: " ++ responsive_str (lay_responsive (an_layout analysis));
      py "Complexity: "
        ++ complexity_str (meta_complexity (an_metadata analysis));
      py "Alignment: " ++ alignment_str (txt_alignment (an_text analysis));
      py "Keywords: " ++ an_keywords analysis ] in
  join (py " ") embedding_components.

(** ** The key sanitizer *)

Definition underscore : N := 95%N.

(** The class [[a-zA-Z0-9_\-=]]. *)
Definition key_char (c : N) : bool :=
  ((97 <=? c) && (c <=? 122) || (65 <=? c) && (c <=? 90)
   || (48 <=? c) && (c <=? 57)
   || (c =? 95) || (c =? 45) || (c =? 61))%N.

(** [re.sub(r'[^a-zA-Z0-9_\-=]', '_', s)] *)
Definition sub_unsafe_chars (s : pystr) : pystr :=
  map (fun c => if key_char c then c else underscore) s.

(** [re.sub(r'_+', '_', s)]: the scan emits one underscore where a run of
    underscores starts and steps over the rest of the run; [in_run] says that
    the previous character belonged to such a run. *)
Fixpoint collapse_runs (in_run : bool) (s : pystr) : pystr :=
  match s with
  | [] => []
  | c :: s' =>
      if N.eqb c underscore then
        if in_run then collapse_runs true s'
        else underscore :: collapse_runs true s'
      else c :: collapse_runs false s'
  end.

Definition sub_underscore_runs (s : pystr) : pystr := collapse_runs false s.

(** [_create_safe_jsx_key] *)
Definition _create_safe_jsx_key (component_name : pystr) : pystr :=
  let safe_name := sub_unsafe_chars component_name in
  let safe_name := strip underscore (sub_underscore_runs safe_name) in
  truncate 100 safe_name.

(** ** Exceptions, output and the external collaborators *)

(** The exceptions an [except Exception] clause catches. *)
Inductive PyExc :=
| KeyError (key : pystr)
| IndexError
| OSError (message : pystr)
| UnicodeDecodeError
| ServiceError (message : pystr).

Inductive Res (A : Type) :=
| Return (a : A)
| Raise (e : PyExc).
Arguments Return {A} a.
Arguments Raise {A} e.

(** The fields of the search index, as the manager declares them. *)
Inductive FieldType :=
| EdmString | EdmInt32 | EdmDouble | EdmBoolean | CollectionOfSingle.

Record FieldSpec := {
  fs_name : pystr;
  fs_type : FieldType;
  fs_key : bool;
  fs_filterable : bool;
  fs_searchable : bool;
  fs_vector_search_dimensions : option Z;
  fs_vector_search_profile_name : option pystr
}.

Record HnswParameters := {
  hnsw_m : Z;
  hnsw_efConstruction : Z;
  hnsw_efSearch : Z;
  hnsw_metric : pystr
}.

Record SearchIndex := {
  idx_name : pystr;
  idx_fields : list FieldSpec;
  (** profile name, algorithm configuration name *)
  idx_profiles : list (pystr * pystr);
  (** algorithm configuration name, parameters *)
  idx_algorithms : list (pystr * HnswParameters)
}.

(** The record [_analyze_jsx_component] assembles. *)
Record Document := {
  doc_id : pystr;
  doc_component_name : pystr;
  doc_component_category : pystr;
  doc_source_type : pystr;
  doc_jsx_structure : pystr;
  doc_layout_method : pystr;
  doc_responsive_strategy : pystr;
  doc_image_count : nat;
  doc_image_arrangement : pystr;
  doc_image_sizing : pystr;
  doc_text_hierarchy : pystr;
  doc_typography_classes : pystr;
  doc_text_alignment : pystr;
  doc_color_palette : pystr;
  doc_spacing_scale : pystr;
  doc_responsive_classes : pystr;
  doc_complexity_level : pystr;
  doc_reusability_score : float;
  doc_mobile_optimized : bool;
  doc_jsx_code : pystr;
  doc_import_statements : pystr;
  doc_export_pattern : pystr;
  doc_search_keywords : pystr;
  doc_embedding_text : pystr;
  doc_jsx_vector : list float
}.

Record VectorizedQuery := {
  vq_vector : list float;
  vq_k_nearest_neighbors : Z;
  vq_fields : pystr
}.

(** The keyword arguments of [search_client.search]. *)
Record SearchRequest := {
  req_search_text : option pystr;
  req_top : Z;
  req_include_total_count : bool;
  req_vector_queries : list VectorizedQuery;
  req_select : list pystr;
  req_filter : option pystr
}.

Inductive pyval :=
| VNone
| VBool (b : bool)
| VInt (z : Z)
| VFloat (f : float)
| VStr (s : pystr).

(** One search hit: a mapping from field names to values. *)
Definition Row := list (pystr * pyval).

Record SearchResults := {
  sr_rows : list Row;
  (** what [get_count()] answers; [None] is Python's [None] *)
  sr_count : option Z
}.

Record IndexingResult := {
  ir_succeeded : bool;
  ir_key : pystr;
  ir_error_message : pystr
}.

(** What the manager prints, one constructor for each [print]. *)
Inductive Msg :=
| MsgIndexFound (index_name : pystr)
| MsgIndexHasData
| MsgIndexWithoutData
| MsgIndexMissing (e : PyExc)
| MsgIndexCreated (index_name : pystr)
| MsgIndexInitFailed (e : PyExc)
| MsgDataConfirmed (document_count : nat)
| MsgDataAbsent
| MsgDataCheckError (e : PyExc)
| MsgFolderNotFound (folder : pystr)
| MsgUsingExistingData
| MsgProcessingStart
| MsgNoJsxFiles (folder : pystr)
| MsgFilesFound (n : nat)
| MsgProcessing (jsx_file : pystr)
| MsgDocumentCreated (jsx_file : pystr)
| MsgAnalysisFailed (jsx_file : pystr)
| MsgProcessingFailed (jsx_file : pystr) (e : PyExc)
| MsgStored (n : nat)
| MsgFinalCount (n : Z)
| MsgNoDocuments
| MsgAnalysisError (jsx_file : pystr) (e : PyExc)
| MsgEmbeddingFailed (e : PyExc)
| MsgUploadDone (n : nat)
| MsgUploadItemFailed (key error_message : pystr)
| MsgUploadAllSucceeded
| MsgUploadFailedCount (failed_count : nat)
| MsgUploadError (e : PyExc)
| MsgCountError (e : PyExc)
| MsgSearchFailed (e : PyExc).

(** The requests sent to the external services. *)
Inductive Call :=
| CallGetIndex (index_name : pystr)
| CallCreateIndex (index : SearchIndex)
| CallSearch (request : SearchRequest)
| CallUpload (documents : list Document)
| CallEmbed (input model : pystr).

Inductive Event :=
| Printed (m : Msg)
| Called (c : Call).

(** The file system the batch reads from; the manager never writes to it. *)
Record FileSystem := {
  os_path_exists : pystr -> bool;
  os_listdir : pystr -> Res (list pystr);
  os_path_join : pystr -> pystr -> pystr;
  (** [open(path, 'r', encoding='utf-8')] followed by [read()] *)
  read_text : pystr -> Res pystr
}.

(** The search service and the embedding provider, over a state [W] of
    theirs that every request may change. *)
Record Services (W : Type) := {
  get_index : pystr -> W -> Res unit * W;
  create_index : SearchIndex -> W -> Res unit * W;
  search : SearchRequest -> W -> Res SearchResults * W;
  upload_documents : list Document -> W -> Res (list IndexingResult) * W;
  (** [embeddings.create(input, model)]: the [embedding] of every item of
      [response.data] *)
  embeddings_create : pystr -> pystr -> W -> Res (list (list float)) * W
}.

(** ** Computations: state of the services, events so far, exceptions *)

Record St (W : Type) := {
  world : W;
  trace : list Event
}.

Definition M (W A : Type) : Type := St W -> Res A * St W.

Definition ret {W A} (a : A) : M W A := fun st => (Return a, st).

Definition bind {W A B} (c : M W A) (k : A -> M W B) : M W B :=
  fun st =>
    match c st with
    | (Return a, st') => k a st'
    | (Raise e, st') => (Raise e, st')
    end.

Definition raise {W A} (e : PyExc) : M W A := fun st => (Raise e, st).

(** [try: body  except Exception as e: handler] *)
Definition try_except {W A} (body : M W A) (handler : PyExc -> M W A) : M W A :=
  fun st =>
    match body st with
    | (Return a, st') => (Return a, st')
    | (Raise e, st') => handler e st'
    end.

Definition lift_res {W A} (r : Res A) : M W A := fun st => (r, st).

Definition print {W} (m : Msg) : M W unit :=
  fun st =>
    (Return tt, {| world := world st; trace := trace st ++ [Printed m] |}).

(** A request to a service: it is recorded, then answered. *)
Definition call {W A} (c : Call) (op : W -> Res A * W) : M W A :=
  fun st =>
    let (r, w') := op (world st) in
    (r, {| world := w'; trace := trace st ++ [Called c] |}).

Declare Scope py_scope.
Delimit Scope py_scope with py.
Notation "x <- c ;; k" := (bind c (fun x => k))
  (at level 61, c at next level, right associativity) : py_scope.
Notation "c ;; k" := (bind c (fun _ => k))
  (at level 61, right associativity) : py_scope.
Open Scope py_scope.

(** ** The manager *)

(** [self.jsx_index_name] and [self.embedding_model] *)
Definition jsx_index_name : pystr := py "jsx-component-vector-index".
Definition embedding_model : pystr := py "text-embedding-ada-002".

(** [SimpleField(name=..., type=..., key=..., filterable=..., searchable=...)] *)
Definition SimpleField (name : string) (type : FieldType)
    (key filterable searchable : bool) : FieldSpec :=
  {| fs_name := py name; fs_type := type; fs_key := key;
     fs_filterable := filterable; fs_searchable := searchable;
     fs_vector_search_dimensions := None;
     fs_vector_search_profile_name := None |}.

(** The index built by [initialize_jsx_search_index]. *)
Definition jsx_search_index : SearchIndex :=
  {| idx_name := jsx_index_name;
     idx_fields :=
       [ SimpleField "id" EdmString true false false;
         SimpleField "component_name" EdmString false true true;
         SimpleField "component_category" EdmString false true false;
         SimpleField "source_type" EdmString false true false;
         SimpleField "jsx_structure" EdmString false false true;
         SimpleField "layout_method" EdmString false true false;
         SimpleField "responsive_strategy" EdmString false true false;
         SimpleField "image_count" EdmInt32 false true false;
         SimpleField "image_arrangement" EdmString false true false;
         SimpleField "image_sizing" EdmString false true false;
         SimpleField "text_hierarchy" EdmString false false true;
         SimpleField "typography_classes" EdmString false false true;
         SimpleField "text_alignment" EdmString false true false;
         SimpleField "color_palette" EdmString false false true;
         SimpleField "spacing_scale" EdmString false false true;
         SimpleField "responsive_classes" EdmString false false true;
         SimpleField "complexity_level" EdmString false true false;
         SimpleField "reusability_score" EdmDouble false true false;
         SimpleField "mobile_optimized" EdmBoolean false true false;
         SimpleField "jsx_code" EdmString false false true;
         SimpleField "import_statements" EdmString false false true;
         SimpleField "export_pattern" EdmString false false true;
         SimpleField "search_keywords" EdmString false false true;
         SimpleField "embedding_text" EdmString false false true;
         {| fs_name := py "jsx_vector"; fs_type := CollectionOfSingle;
            fs_key := false; fs_filterable := false; fs_searchable := true;
            fs_vector_search_dimensions := Some 1536%Z;
            fs_vector_search_profile_name := Some (py "jsx-component-profile") |} ];
     idx_profiles := [ (py "jsx-component-profile", py "jsx-algorithm") ];
     idx_algorithms :=
       [ (py "jsx-algorithm",
          {| hnsw_m := 4; hnsw_efConstruction := 400; hnsw_efSearch := 500;
             hnsw_metric := py "cosine" |}) ] |}.

(** [row[key]] and [row.get(key, default)] *)
Fixpoint row_get (key : pystr) (default : pyval) (row : Row) : pyval :=
  match row with
  | [] => default
  | (k, v) :: row' => if PyStr.eqb k key then v else row_get key default row'
  end.

Fixpoint row_getitem (key : pystr) (row : Row) : Res pyval :=
  match row with
  | [] => Raise (KeyError key)
  | (k, v) :: row' => if PyStr.eqb k key then Return v else row_getitem key row'
  end.

(** [xs[:k]] *)
Definition slice_to {A} (k : Z) (xs : list A) : list A :=
  if (0 <=? k)%Z then firstn (Z.to_nat k) xs
  else firstn (length xs - Z.to_nat (- k)) xs.

(** The truth value of an optional string: [None] and [''] are false. *)
Definition truthy (s : option pystr) : bool :=
  match s with
  | Some (_ :: _) => true
  | _ => false
  end.

(** One entry of the list [search_jsx_components] returns. *)
Record ComponentData := {
  cd_id : pyval;
  cd_component_name : pyval;
  cd_category : pyval;
  cd_layout_method : pyval;
  cd_image_count : pyval;
  cd_image_arrangement : pyval;
  cd_complexity : pyval;
  cd_jsx_code : pyval;
  cd_keywords : pyval;
  cd_score : pyval
}.

Definition res_bind {A B} (r : Res A) (k : A -> Res B) : Res B :=
  match r with
  | Return a => k a
  | Raise e => Raise e
  end.

(** The body of the loop over the hits in [search_jsx_components]. *)
Definition component_data_of (result : Row) : Res ComponentData :=
  res_bind (row_getitem (py "id") result) (fun id =>
  res_bind (row_getitem (py "component_name") result) (fun name =>
  res_bind (row_getitem (py "component_category") result) (fun category =>
  res_bind (row_getitem (py "layout_method") result) (fun layout_method =>
  res_bind (row_getitem (py "image_count") result) (fun image_count =>
  res_bind (row_getitem (py "image_arrangement") result) (fun arrangement =>
  res_bind (row_getitem (py "complexity_level") result) (fun complexity =>
  res_bind (row_getitem (py "jsx_code") result) (fun jsx_code =>
  res_bind (row_getitem (py "search_keywords") result) (fun keywords =>
  Return
    {| cd_id := id;
       cd_component_name := name;
       cd_category := category;
       cd_layout_method := layout_method;
       cd_image_count := image_count;
       cd_image_arrangement := arrangement;
       cd_complexity := complexity;
       cd_jsx_code := jsx_code;
       cd_keywords := keywords;
       cd_score := row_get (py "@search.score") (VFloat 0%float) result |}
  ))))))))).

Fixpoint collect_components (results : list Row)
    (jsx_components : list ComponentData) : Res (list ComponentData) :=
  match results with
  | [] => Return jsx_components
  | result :: results' =>
      res_bind (component_data_of result) (fun component_data =>
      collect_components results' (jsx_components ++ [component_data]))
  end.

Section Manager.
Variable L : PyLib.
Variable FS : FileSystem.
Variable W : Type.
Variable S : Services W.

(** [_create_jsx_embedding] *)
Definition _create_jsx_embedding (text : pystr) : M W (list float) :=
  try_except
    (data <- call (CallEmbed text embedding_model)
               (embeddings_create S text embedding_model) ;;
     match data with
     | embedding :: _ => ret embedding
     | [] => raise IndexError
     end)
    (fun e =>
       print (MsgEmbeddingFailed e) ;;
       ret (repeat 0%float 1536)).

(** [_check_jsx_index_has_data] *)
Definition _check_jsx_index_has_data : M W bool :=
  try_except
    (let request :=
       {| req_search_text := Some (py "*"); req_top := 1;
          req_include_total_count := true; req_vector_queries := [];
          req_select := []; req_filter := None |} in
     results <- call (CallSearch request) (search S request) ;;
     let document_count :=
       match sr_rows results with
       | _ :: _ => 1
       | [] => 0
       end in
     if 0 <? document_count then
       print (MsgDataConfirmed document_count) ;; ret true
     else
       print MsgDataAbsent ;; ret false)
    (fun e => print (MsgDataCheckError e) ;; ret false).

(** [initialize_jsx_search_index] *)
Definition initialize_jsx_search_index : M W bool :=
  try_except
    (existing <-
       try_except
         (call (CallGetIndex jsx_index_name) (get_index S jsx_index_name) ;;
          print (MsgIndexFound jsx_index_name) ;;
          has_data <- _check_jsx_index_has_data ;;
          if has_data then print MsgIndexHasData ;; ret (Some true)
          else print MsgIndexWithoutData ;; ret (Some false))
         (fun e => print (MsgIndexMissing e) ;; ret None) ;;
     match existing with
     | Some answer => ret answer
     | None =>
         call (CallCreateIndex jsx_search_index)
           (create_index S jsx_search_index) ;;
         print (MsgIndexCreated jsx_index_name) ;;
         ret false
     end)
    (fun e => print (MsgIndexInitFailed e) ;; ret false).

(** [json.dumps] of a list of strings and of the structure dictionary. *)
Definition dumps_strings (xs : list pystr) : pystr :=
  json_dumps L (JList (map JStr xs)).

Definition dumps_structure (st : Structure) : pystr :=
  json_dumps L
    (JObj [ (py "component_type", JStr (component_type st));
            (py "hooks_used", JList (map JStr (hooks_used st)));
            (py "props_pattern", JStr (props_pattern st));
            (py "children_structure",
             JStr (children_structure_str (children_structure st))) ]).

(** [_analyze_jsx_component] *)
Definition _analyze_jsx_component (jsx_path jsx_file : pystr)
  : M W (option Document) :=
  try_except
    (jsx_code <- lift_res (read_text FS jsx_path) ;;
     let component_name := replace (py ".jsx") [] jsx_file in
     let analysis := _extract_jsx_patterns L jsx_code component_name in
     let embedding_text := _create_jsx_embedding_text analysis in
     vector <- _create_jsx_embedding embedding_text ;;
     let doc_id := _create_safe_jsx_key component_name in
     let jsx_document :=
       {| doc_id := doc_id;
          doc_component_name := component_name;
          doc_component_category := category_str (an_category analysis);
          doc_source_type := py "magazine_template";
          doc_jsx_structure := dumps_structure (an_structure analysis);
          doc_layout_method :=
            layout_method_str (lay_method (an_layout analysis));
          doc_responsive_strategy :=
            responsive_str (lay_responsive (an_layout analysis));
          doc_image_count := img_count (an_images analysis);
          doc_image_arrangement :=
            arrangement_str (img_arrangement (an_images analysis));
          doc_image_sizing := sizing_str (img_sizing (an_images analysis));
          doc_text_hierarchy :=
            dumps_strings (txt_hierarchy (an_text analysis));
          doc_typography_classes :=
            dumps_strings (txt_typography (an_text analysis));
          doc_text_alignment :=
            alignment_str (txt_alignment (an_text analysis));
          doc_color_palette := dumps_strings (tw_colors (an_tailwind analysis));
          doc_spacing_scale := dumps_strings (tw_spacing (an_tailwind analysis));
          doc_responsive_classes :=
            dumps_strings (tw_responsive (an_tailwind analysis));
          doc_complexity_level :=
            complexity_str (meta_complexity (an_metadata analysis));
          doc_reusability_score := meta_reusability (an_metadata analysis);
          doc_mobile_optimized := meta_mobile_optimized (an_metadata analysis);
          doc_jsx_code := jsx_code;
          doc_import_statements :=
            dumps_strings (code_imports (an_code analysis));
          doc_export_pattern := export_str (code_export (an_code analysis));
          doc_search_keywords := an_keywords analysis;
          doc_embedding_text := embedding_text;
          doc_jsx_vector := vector |} in
     ret (Some jsx_document))
    (fun e => print (MsgAnalysisError jsx_file e) ;; ret None).

(** The loop over the upload results in [_upload_jsx_to_search_index]. *)
Fixpoint report_upload_failures (result : list IndexingResult)
    (failed_count : nat) : M W nat :=
  match result with
  | [] => ret failed_count
  | res :: result' =>
      if negb (ir_succeeded res) then
        print (MsgUploadItemFailed (ir_key res) (ir_error_message res)) ;;
        report_upload_failures result' (failed_count + 1)
      else report_upload_failures result' failed_count
  end.

(** [_upload_jsx_to_search_index] *)
Definition _upload_jsx_to_search_index (documents : list Document) : M W unit :=
  try_except
    (result <- call (CallUpload documents) (upload_documents S documents) ;;
     print (MsgUploadDone (length documents)) ;;
     failed_count <- report_upload_failures result 0 ;;
     if failed_count =? 0 then print MsgUploadAllSucceeded
     else print (MsgUploadFailedCount failed_count))
    (fun e => print (MsgUploadError e)).

(** [_get_jsx_document_count] *)
Definition _get_jsx_document_count : M W Z :=
  try_except
    (let request :=
       {| req_search_text := Some (py "*"); req_top := 0;
          req_include_total_count := true; req_vector_queries := [];
          req_select := []; req_filter := None |} in
     results <- call (CallSearch request) (search S request) ;;
     match sr_count results with
     | Some total_count =>
         ret (if (total_count =? 0)%Z then 0%Z else total_count)
     | None => ret 0%Z
     end)
    (fun e => print (MsgCountError e) ;; ret 0%Z).

(** The body of the loop over the files in [process_jsx_components]. *)
Definition process_jsx_file (components_folder jsx_file : pystr)
    (all_documents : list Document) : M W (list Document) :=
  let jsx_path := os_path_join FS components_folder jsx_file in
  print (MsgProcessing jsx_file) ;;
  try_except
    (jsx_document <- _analyze_jsx_component jsx_path jsx_file ;;
     match jsx_document with
     | Some document =>
         print (MsgDocumentCreated jsx_file) ;;
         ret (all_documents ++ [document])
     | None =>
         print (MsgAnalysisFailed jsx_file) ;;
         ret all_documents
     end)
    (fun e => print (MsgProcessingFailed jsx_file e) ;; ret all_documents).

Fixpoint process_jsx_files (components_folder : pystr)
    (jsx_files : list pystr) (all_documents : list Document)
  : M W (list Document) :=
  match jsx_files with
  | [] => ret all_documents
  | jsx_file :: jsx_files' =>
      all_documents' <-
        process_jsx_file components_folder jsx_file all_documents ;;
      process_jsx_files components_folder jsx_files' all_documents'
  end.

(** What [process_jsx_components] does once the list of files is known to
    hold at least one file: the loop, then the upload. *)
Definition ingest_jsx_files (components_folder : pystr)
    (jsx_files : list pystr) : M W unit :=
  print (MsgFilesFound (length jsx_files)) ;;
  all_documents <- process_jsx_files components_folder jsx_files [] ;;
  match all_documents with
  | _ :: _ =>
      _upload_jsx_to_search_index all_documents ;;
      print (MsgStored (length all_documents)) ;;
      final_count <- _get_jsx_document_count ;;
      print (MsgFinalCount final_count)
  | [] => print MsgNoDocuments
  end.

(** [process_jsx_components] *)
Definition process_jsx_components (components_folder : pystr) : M W unit :=
  if negb (os_path_exists FS components_folder) then
    print (MsgFolderNotFound components_folder)
  else
    has_data <- initialize_jsx_search_index ;;
    if has_data then print MsgUsingExistingData
    else
      print MsgProcessingStart ;;
      names <- lift_res (os_listdir FS components_folder) ;;
      let jsx_files := filter (ends_with (py ".jsx")) names in
      match jsx_files with
      | [] => print (MsgNoJsxFiles components_folder)
      | _ :: _ => ingest_jsx_files components_folder jsx_files
      end.

(** [" and ".join(filters)] of [search_jsx_components] *)
Definition search_filters (category : option pystr) (image_count : option Z)
    (complexity : option pystr) : list pystr :=
  let filters := [] in
  let filters :=
    match category with
    | Some c =>
        if truthy category
        then filters ++ [py "component_category eq '" ++ c ++ py "'"]
        else filters
    | None => filters
    end in
  let filters :=
    match image_count with
    | Some n => filters ++ [py "image_count eq " ++ str_of_Z n]
    | None => filters
    end in
  let filters :=
    match complexity with
    | Some c =>
        if truthy complexity
        then filters ++ [py "complexity_level eq '" ++ c ++ py "'"]
        else filters
    | None => filters
    end in
  filters.

Definition search_select : list pystr :=
  [ py "id"; py "component_name"; py "component_category";
    py "jsx_structure"; py "layout_method"; py "image_count";
    py "image_arrangement"; py "complexity_level"; py "jsx_code";
    py "search_keywords" ].

(** The keyword arguments [search_jsx_components] passes to the search. *)
Definition search_params (query_embedding : list float)
    (category : option pystr) (image_count : option Z)
    (complexity : option pystr) (top_k : Z) : SearchRequest :=
  let vector_query :=
    {| vq_vector := query_embedding;
       vq_k_nearest_neighbors := (top_k * 2)%Z;
       vq_fields := py "jsx_vector" |} in
  let filters := search_filters category image_count complexity in
  {| req_search_text := None;
     req_top := (top_k * 2)%Z;
     req_include_total_count := false;
     req_vector_queries := [vector_query];
     req_select := search_select;
     req_filter :=
       match filters with
       | [] => None
       | _ :: _ => Some (join (py " and ") filters)
       end |}.

(** [search_jsx_components] *)
Definition search_jsx_components (query_text : pystr)
    (category : option pystr) (image_count : option Z)
    (complexity : option pystr) (top_k : Z) : M W (list ComponentData) :=
  try_except
    (query_embedding <- _create_jsx_embedding query_text ;;
     let request :=
       search_params query_embedding category image_count complexity top_k in
     results <- call (CallSearch request) (search S request) ;;
     jsx_components <- lift_res (collect_components (sr_rows results) []) ;;
     ret (slice_to top_k jsx_components))
    (fun e => print (MsgSearchFailed e) ;; ret []).

(** [get_jsx_recommendations] *)
Definition get_jsx_recommendations (content_description : pystr)
    (image_count : option Z) (layout_preference : option pystr)
  : M W (list ComponentData) :=
  let category :=
    match image_count with
    | Some n =>
        if (n =? 0)%Z then Some (category_str text_focused)
        else if (n <=? 2)%Z then Some (category_str mixed)
        else Some (category_str image_focused)
    | None => None
    end in
  let search_query := content_description ++ py " layout design component" in
  let search_query :=
    match layout_preference with
    | Some p => if truthy layout_preference
                then search_query ++ py " " ++ p else search_query
    | None => search_query
    end in
  search_jsx_components search_query category image_count None 3.

End Manager.

(** ** Notions used to state the properties *)

(** The tags of the text hierarchy and the substring that opens each. *)
Definition heading_tags : list pystr := [py "h1"; py "h2"; py "h3"; py "p"].

Definition tag_marker (tag : pystr) : pystr := py "<" ++ tag.

(** The hierarchy read as the order in which the tags first occur in the
    text: every position of the text is visited from left to right, the tag
    opening there, if any, is recorded, and later repetitions are left
    out. *)
Definition tag_opening_at (s : pystr) : option pystr :=
  find (fun tag => starts_with (tag_marker tag) s) heading_tags.

Fixpoint tags_in_scan_order (s : pystr) : list pystr :=
  match s with
  | [] => []
  | _ :: s' =>
      match tag_opening_at s with
      | Some tag => tag :: tags_in_scan_order s'
      | None => tags_in_scan_order s'
      end
  end.

Definition keep_first_occurrences (tags : list pystr) : list pystr :=
  fold_left
    (fun seen tag => if existsb (PyStr.eqb tag) seen then seen else seen ++ [tag])
    tags [].

Definition hierarchy_by_first_occurrence (jsx_code : pystr) : list pystr :=
  keep_first_occurrences (tags_in_scan_order jsx_code).

(** [w] spells the lower-case ASCII keyword [kw] in some mix of cases. *)
Definition in_any_case (kw w : pystr) : Prop := map ascii_lower w = kw.

(** The keywords of the classifier, in the order of its tests. *)
Definition name_keywords : list (pystr * Category) :=
  [ (py "image", image_focused);
    (py "text", text_focused);
    (py "mixed", mixed);
    (py "card", card_based);
    (py "list", list_based);
    (py "dashboard", dashboard) ].

Definition first_name_keyword (L : PyLib) (component_name : pystr)
  : option (pystr * Category) :=
  find (fun kc => contains (fst kc) (str_lower L component_name)) name_keywords.

(** A name the sanitizer has nothing to do on. *)
Definition only_key_chars (s : pystr) : bool := forallb key_char s.
Definition no_doubled_underscore (s : pystr) : bool :=
  negb (contains (py "__") s).
Definition no_outer_underscore (s : pystr) : bool :=
  negb (starts_with (py "_") s) && negb (ends_with (py "_") s).

Definition canonical_key (s : pystr) : bool :=
  only_key_chars s && no_doubled_underscore s && no_outer_underscore s
  && (length s <=? 100).

(** The numbers a printed message shows. *)
Definition msg_numbers (m : Msg) : list Z :=
  match m with
  | MsgDataConfirmed n | MsgFilesFound n | MsgStored n | MsgUploadDone n
  | MsgUploadFailedCount n => [Z.of_nat n]
  | MsgFinalCount n => [n]
  | _ => []
  end.

Definition shows_number (n : Z) (ev : Event) : bool :=
  match ev with
  | Printed m => existsb (Z.eqb n) (msg_numbers m)
  | Called _ => false
  end.

(** The messages printed in the course of a run, in their order. *)
Fixpoint printed (events : list Event) : list Msg :=
  match events with
  | [] => []
  | Printed m :: events' => m :: printed events'
  | Called _ :: events' => printed events'
  end.

(** Whether a file of the folder can be read. *)
Definition readable (FS : FileSystem) (components_folder jsx_file : pystr)
  : bool :=
  match read_text FS (os_path_join FS components_folder jsx_file) with
  | Return _ => true
  | Raise _ => false
  end.

Definition file_text (FS : FileSystem) (components_folder jsx_file : pystr)
  : pystr :=
  match read_text FS (os_path_join FS components_folder jsx_file) with
  | Return text => text
  | Raise _ => []
  end.

(** ** A small installation to run the manager on *)

(** [json.dumps] on strings that need no escape. *)
Fixpoint plain_json_dumps (v : json) : pystr :=
  match v with
  | JStr s => dquote ++ s ++ dquote
  | JList items => py "[" ++ join (py ", ") (map plain_json_dumps items) ++ py "]"
  | JObj fields =>
      py "{"
      ++ join (py ", ")
           (map (fun kv => dquote ++ fst kv ++ dquote ++ py ": "
                           ++ plain_json_dumps (snd kv)) fields)
      ++ py "}"
  end.

(** The library on ASCII texts that hold no quoted style value and no import
    statement: [lower] never meets a character outside ASCII and no pattern
    of the extractors matches. *)
Definition plain_lib : PyLib :=
  {| unicode_lower := fun _ c _ => [c];
     re_findall := fun _ _ => [];
     list_of_set := fun xs => xs;
     json_dumps := plain_json_dumps |}.

(** A folder with one readable and two unreadable components and a file
    that is no component. *)
Definition demo_fs : FileSystem :=
  {| os_path_exists := fun path => PyStr.eqb path (py "components");
     os_listdir := fun path =>
       if PyStr.eqb path (py "components")
       then Return [py "HeroBanner.jsx"; py "Locked.jsx"; py "README.md";
                    py "Binary.jsx"]
       else Raise (OSError (py "no such directory"));
     os_path_join := fun folder file => folder ++ py "/" ++ file;
     read_text := fun path =>
       if PyStr.eqb path (py "components/HeroBanner.jsx")
       then Return (py "<div><h1>Title</h1><img src='hero.png'/></div>")
       else if PyStr.eqb path (py "components/Binary.jsx")
       then Raise UnicodeDecodeError
       else Raise (OSError (py "permission denied")) |}.

(** A hit as the index returns it for a stored document. *)
Definition row_of_document (d : Document) : Row :=
  [ (py "id", VStr (doc_id d));
    (py "component_name", VStr (doc_component_name d));
    (py "component_category", VStr (doc_component_category d));
    (py "jsx_structure", VStr (doc_jsx_structure d));
    (py "layout_method", VStr (doc_layout_method d));
    (py "image_count", VInt (Z.of_nat (doc_image_count d)));
    (py "image_arrangement", VStr (doc_image_arrangement d));
    (py "complexity_level", VStr (doc_complexity_level d));
    (py "jsx_code", VStr (doc_jsx_code d));
    (py "search_keywords", VStr (doc_search_keywords d));
    (py "@search.score", VFloat 0.5%float) ].

(** An index held as the list of its documents.  A search answers with the
    first [top] documents, whatever the query; the index exists from the
    start; an upload stores every document. *)
Definition demo_search (request : SearchRequest) (w : list Document)
  : Res SearchResults * list Document :=
  (Return {| sr_rows := map row_of_document (firstn (Z.to_nat (req_top request)) w);
             sr_count := Some (Z.of_nat (length w)) |}, w).

Definition demo_upload (documents w : list Document)
  : Res (list IndexingResult) * list Document :=
  (Return (map (fun d => {| ir_succeeded := true; ir_key := doc_id d;
                            ir_error_message := [] |}) documents),
   w ++ documents).

Definition demo_services : Services (list Document) :=
  {| get_index := fun _ w => (Return tt, w);
     create_index := fun _ w => (Return tt, w);
     search := demo_search;
     upload_documents := demo_upload;
     embeddings_create := fun _ _ w => (Return [repeat 0.25%float 1536], w) |}.

(** The same index behind an embedding provider that is out of service. *)
Definition embedding_down_services : Services (list Document) :=
  {| get_index := fun _ w => (Return tt, w);
     create_index := fun _ w => (Return tt, w);
     search := demo_search;
     upload_documents := demo_upload;
     embeddings_create := fun _ _ w =>
       (Raise (ServiceError (py "embedding deployment unavailable")), w) |}.

Definition empty_index : St (list Document) := {| world := []; trace := [] |}.

(** The document of [HeroBanner.jsx], as [demo_services] indexes it. *)
Definition hero_document : list Document :=
  match
    _analyze_jsx_component plain_lib demo_fs demo_services
      (py "components/HeroBanner.jsx") (py "HeroBanner.jsx") empty_index
  with
  | (Return (Some d), _) => [d]
  | _ => []
  end.

Definition hero_index : St (list Document) :=
  {| world := hero_document; trace := [] |}.

(** ** Notions used for the other operations *)

(** The requests sent to the services in the course of a run, in their
    order. *)
Fixpoint requests (events : list Event) : list Call :=
  match events with
  | [] => []
  | Called c :: events' => c :: requests events'
  | Printed _ :: events' => requests events'
  end.

Definition is_embed (c : Call) : bool :=
  match c with CallEmbed _ _ => true | _ => false end.

Definition is_upload (c : Call) : bool :=
  match c with CallUpload _ => true | _ => false end.

(** The request of [_check_jsx_index_has_data] and the one of
    [_get_jsx_document_count]. *)
Definition has_data_request : SearchRequest :=
  {| req_search_text := Some (py "*"); req_top := 1;
     req_include_total_count := true; req_vector_queries := [];
     req_select := []; req_filter := None |}.

Definition count_request : SearchRequest :=
  {| req_search_text := Some (py "*"); req_top := 0;
     req_include_total_count := true; req_vector_queries := [];
     req_select := []; req_filter := None |}.

(** The fields [search_jsx_components] reads from a hit with [result[...]],
    in the order it reads them. *)
Definition hit_fields : list pystr :=
  [ py "id"; py "component_name"; py "component_category";
    py "layout_method"; py "image_count"; py "image_arrangement";
    py "complexity_level"; py "jsx_code"; py "search_keywords" ].

Definition row_has (key : pystr) (row : Row) : bool :=
  existsb (fun kv => PyStr.eqb (fst kv) key) row.

Definition complete_hit (row : Row) : bool :=
  forallb (fun key => row_has key row) hit_fields.

(** A name without any letter, digit, hyphen or equals sign of ASCII. *)
Definition no_key_material (name : pystr) : bool :=
  forallb (fun c => negb (key_char c) || N.eqb c underscore) name.

(** The message printed for an upload result that did not succeed. *)
Definition upload_failure_messages (result : list IndexingResult)
  : list Event :=
  map (fun res => Printed (MsgUploadItemFailed (ir_key res)
                             (ir_error_message res)))
    (filter (fun res => negb (ir_succeeded res)) result).

(** The embedding request [_analyze_jsx_component] sends for a file. *)
Definition embed_request_of (L : PyLib) (FS : FileSystem)
    (components_folder jsx_file : pystr) : Call :=
  CallEmbed
    (_create_jsx_embedding_text
       (_extract_jsx_patterns L (file_text FS components_folder jsx_file)
          (replace (py ".jsx") [] jsx_file)))
    embedding_model.

(** The text [_analyze_jsx_component] sends for embedding for a file. *)
Definition embedding_text_of (L : PyLib) (FS : FileSystem)
    (components_folder jsx_file : pystr) : pystr :=
  _create_jsx_embedding_text
    (_extract_jsx_patterns L (file_text FS components_folder jsx_file)
       (replace (py ".jsx") [] jsx_file)).

(** The state of the services after the embedding requests for [texts],
    sent one after the other. *)
Definition world_after_embeddings {W : Type} (S : Services W)
    (texts : list pystr) (w : W) : W :=
  fold_left (fun w text => snd (embeddings_create S text embedding_model w))
    texts w.

(** What [_get_jsx_document_count] makes of the answer to its request. *)
Definition count_answer (answer : Res SearchResults) : Z :=
  match answer with
  | Return results =>
      match sr_count results with
      | Some total_count => total_count
      | None => 0%Z
      end
  | Raise _ => 0%Z
  end.

(** * Properties *)

(** ** Substrings and counts *)

Lemma starts_with_spec (sub s : pystr) :
  starts_with sub s = true <-> exists rest, s = sub ++ rest.
Proof.
  revert s; induction sub as [|a sub IH]; intros s; simpl.
  - split; [intros _; now exists s | reflexivity].
  - destruct s as [|b s].
    + split; [discriminate | intros [rest H]; discriminate].
    + rewrite andb_true_iff, N.eqb_eq, IH. split.
      * intros [-> [rest ->]]. now exists rest.
      * intros [rest H]. injection H as -> ->. split; [reflexivity | now exists rest].
Qed.

Lemma contains_spec (sub s : pystr) :
  contains sub s = true <-> exists before after, s = before ++ sub ++ after.
Proof.
  induction s as [|c s IH].
  - simpl. rewrite orb_false_r, starts_with_spec. split.
    + intros [rest H]. now exists [], rest.
    + intros [before [after H]]. destruct before as [|x before]; [|discriminate].
      now exists after.
  - cbn [contains]. rewrite orb_true_iff, starts_with_spec, IH. split.
    + intros [[rest H] | [before [after H]]].
      * now exists [], rest.
      * exists (c :: before), after. now rewrite H.
    + intros [before [after H]]. destruct before as [|x before].
      * left. now exists after.
      * right. injection H as -> H. now exists before, after.
Qed.

Lemma contains_infix (sub before s after : pystr) :
  contains sub s = true -> contains sub (before ++ s ++ after) = true.
Proof.
  rewrite !contains_spec. intros [a [b ->]].
  exists (before ++ a), (b ++ after). now rewrite <- !app_assoc.
Qed.

Lemma not_contains_infix (sub before s after : pystr) :
  contains sub (before ++ s ++ after) = false -> contains sub s = false.
Proof.
  intros H. destruct (contains sub s) eqn:E; [|reflexivity].
  now rewrite (contains_infix _ before _ after E) in H.
Qed.

Lemma count_from_absent (sub s : pystr) :
  contains sub s = false -> forall skip, count_from sub skip s = 0.
Proof.
  induction s as [|c s IH]; intros H skip; [reflexivity|].
  cbn [contains] in H. apply orb_false_iff in H as [Hhere Hlater].
  cbn [count_from]. destruct skip as [|k].
  - rewrite Hhere. now apply IH.
  - now apply IH.
Qed.

Lemma count_absent (sub s : pystr) :
  contains sub s = false -> count sub s = 0.
Proof.
  intros H. destruct sub as [|a sub].
  - destruct s; discriminate.
  - now apply count_from_absent.
Qed.

(** ** Case folding *)

Section LowerFacts.
Variable unicode_lower : pystr -> N -> pystr -> pystr.

Lemma ascii_lower_ge (c : N) : (c <= ascii_lower c)%N.
Proof. unfold ascii_lower. destruct (is_ascii_upper c); lia. Qed.

Lemma lower_from_word (kw w : pystr) :
  Forall (fun c => (c < 128)%N) kw ->
  in_any_case kw w ->
  forall before_rev rest,
    lower_from unicode_lower before_rev (w ++ rest)
    = kw ++ lower_from unicode_lower (rev w ++ before_rev) rest.
Proof.
  unfold in_any_case. revert kw; induction w as [|c w IH]; intros kw Hkw Hw.
  - simpl in Hw. subst kw. reflexivity.
  - simpl in Hw. subst kw. inversion Hkw as [|? ? Hc Hrest]; subst.
    intros before_rev rest. cbn [app lower_from]. unfold lower_char.
    pose proof (ascii_lower_ge c) as Hge.
    replace (c <? 128)%N with true by (symmetry; apply N.ltb_lt; lia).
    cbn [app map]. f_equal.
    rewrite (IH _ Hrest eq_refl). cbn [rev]. now rewrite <- app_assoc.
Qed.

Lemma contains_lower_word (kw w : pystr) :
  Forall (fun c => (c < 128)%N) kw ->
  in_any_case kw w ->
  forall before after before_rev,
    contains kw (lower_from unicode_lower before_rev (before ++ w ++ after))
    = true.
Proof.
  intros Hkw Hw before after.
  induction before as [|c before IH]; intros before_rev.
  - cbn [app]. rewrite (lower_from_word Hkw Hw).
    apply contains_spec. now exists [], (lower_from unicode_lower (rev w ++ before_rev) after).
  - cbn [app lower_from].
    pose proof (contains_infix kw
      (lower_char unicode_lower before_rev c (before ++ w ++ after))
      (lower_from unicode_lower (c :: before_rev) (before ++ w ++ after)) []
      (IH _)) as H.
    now rewrite app_nil_r in H.
Qed.

End LowerFacts.

(** ** Image patterns *)

Section ExtractorFacts.
Variable L : PyLib.

(** C8. A text in which ['<img'] does not occur has image count 0, and its
    arrangement is neither "single" nor "gallery". *)
Theorem images_without_img_tag (jsx_code : pystr) :
  contains (py "<img") jsx_code = false ->
  img_count (_analyze_image_patterns L jsx_code) = 0
  /\ img_arrangement (_analyze_image_patterns L jsx_code) <> arr_single
  /\ img_arrangement (_analyze_image_patterns L jsx_code) <> arr_gallery.
Proof.
  intros H. unfold _analyze_image_patterns. cbn [img_count img_arrangement].
  rewrite (count_absent _ _ H). cbn [Nat.ltb Nat.leb Nat.eqb].
  rewrite andb_false_r.
  destruct (contains (py "grid") (str_lower L jsx_code));
    repeat split; discriminate.
Qed.

(** C4. The arrangement follows the precedence grid, flex with more than
    one image, single, gallery, multiple; and a text that holds "grid" in
    any mix of cases is arranged as a grid, whatever else it holds. *)
Theorem image_arrangement_precedence :
  (forall jsx_code,
     let n := count (py "<img") jsx_code in
     let has kw := contains kw (str_lower L jsx_code) = true in
     let arrangement := img_arrangement (_analyze_image_patterns L jsx_code) in
     (has (py "grid") -> arrangement = arr_grid)
     /\ (~ has (py "grid") -> has (py "flex") -> n > 1 ->
         arrangement = arr_flex)
     /\ (~ has (py "grid") -> ~ (has (py "flex") /\ n > 1) -> n = 1 ->
         arrangement = arr_single)
     /\ (~ has (py "grid") -> ~ (has (py "flex") /\ n > 1) -> n > 3 ->
         arrangement = arr_gallery)
     /\ (~ has (py "grid") -> ~ (has (py "flex") /\ n > 1) -> n <> 1 ->
         n <= 3 -> arrangement = arr_multiple))
  /\ (forall before w after,
        in_any_case (py "grid") w ->
        img_arrangement (_analyze_image_patterns L (before ++ w ++ after))
        = arr_grid).
Proof.
  split.
  - intros jsx_code n has arrangement. subst has arrangement.
    unfold _analyze_image_patterns. cbn [img_arrangement]. fold n.
    destruct (contains (py "grid") (str_lower L jsx_code)).
    { repeat split; intros; try reflexivity; exfalso; auto. }
    destruct (contains (py "flex") (str_lower L jsx_code)) eqn:Hflex;
      cbn [andb];
      destruct (Nat.ltb_spec 1 n) as [H1|H1];
      destruct (Nat.eqb_spec n 1) as [He|He];
      destruct (Nat.ltb_spec 3 n) as [H3|H3];
      repeat split; intros; try reflexivity; try discriminate; try lia;
      exfalso; auto.
  - intros before w after Hw.
    unfold _analyze_image_patterns. cbn [img_arrangement].
    unfold str_lower, lower.
    rewrite (contains_lower_word (unicode_lower L)
               (kw := py "grid") (w := w)); [reflexivity | | exact Hw].
    repeat constructor.
Qed.

(** ** Classification *)

(** The chain of tests of the classifier is a search through
    [name_keywords]. *)
Lemma classify_unfold (component_name jsx_code : pystr) :
  _classify_component_category L component_name jsx_code
  = match first_name_keyword L component_name with
    | Some (_, category) => category
    | None =>
        let imgs := count (py "<img") jsx_code in
        let texts :=
          count (py "<h1") jsx_code + count (py "<h2") jsx_code
          + count (py "<p") jsx_code in
        if texts <? imgs then image_focused
        else if imgs * 2 <? texts then text_focused
        else mixed
    end.
Proof.
  unfold _classify_component_category, first_name_keyword, name_keywords.
  cbn [find fst].
  repeat match goal with
         | |- context [if contains ?kw ?s then _ else _] =>
             destruct (contains kw s); [reflexivity|]
         end.
  reflexivity.
Qed.

(** C5. When the lower-cased name holds one of the keywords image, text,
    mixed, card, list, dashboard, the first of them in that order decides
    the category, whatever the text is; when it holds none and the text has
    no image, heading or paragraph tag, the category is "mixed". *)
Theorem classify_by_name_keyword (component_name : pystr) :
  (forall kw category,
     first_name_keyword L component_name = Some (kw, category) ->
     forall jsx_code,
       _classify_component_category L component_name jsx_code = category)
  /\ (first_name_keyword L component_name = None ->
      forall jsx_code,
        contains (py "<img") jsx_code = false ->
        contains (py "<h1") jsx_code = false ->
        contains (py "<h2") jsx_code = false ->
        contains (py "<p") jsx_code = false ->
        _classify_component_category L component_name jsx_code = mixed).
Proof.
  split.
  - intros kw category H jsx_code. now rewrite classify_unfold, H.
  - intros H jsx_code Himg Hh1 Hh2 Hp. rewrite classify_unfold, H.
    now rewrite (count_absent _ _ Himg), (count_absent _ _ Hh1),
      (count_absent _ _ Hh2), (count_absent _ _ Hp).
Qed.

(** C10. When no keyword of the name matches, with [imgs] the count of
    ['<img'] and [texts] the counts of ['<h1'], ['<h2'] and ['<p'] added up
    (['<h3'] has no part in it), the category is "image_focused" exactly
    when [imgs > texts], else "text_focused" exactly when
    [texts > 2 * imgs], else "mixed". *)
Theorem classify_by_content (component_name jsx_code : pystr) :
  first_name_keyword L component_name = None ->
  let imgs := count (py "<img") jsx_code in
  let texts :=
    count (py "<h1") jsx_code + count (py "<h2") jsx_code
    + count (py "<p") jsx_code in
  let category := _classify_component_category L component_name jsx_code in
  (category = image_focused <-> imgs > texts)
  /\ (category = text_focused <-> ~ imgs > texts /\ texts > 2 * imgs)
  /\ (category = mixed <-> ~ imgs > texts /\ ~ texts > 2 * imgs).
Proof.
  intros H imgs texts category. subst category.
  rewrite classify_unfold, H. cbn zeta. fold imgs. fold texts.
  destruct (Nat.ltb_spec texts imgs) as [H1|H1];
    [|destruct (Nat.ltb_spec (imgs * 2) texts) as [H2|H2]];
    (repeat split; intros; try discriminate; try reflexivity; try lia).
Qed.

End ExtractorFacts.

(** ** Text hierarchy *)

Lemma pystr_eqb_eq (a b : pystr) : PyStr.eqb a b = true <-> a = b.
Proof.
  unfold PyStr.eqb. destruct (list_eq_dec N.eq_dec a b); split;
    intros; try reflexivity; try assumption; try discriminate; contradiction.
Qed.

Lemma keep_first_occurrences_from (tags seen : list pystr) (tag : pystr) :
  In tag
    (fold_left
       (fun seen tag =>
          if existsb (PyStr.eqb tag) seen then seen else seen ++ [tag])
       tags seen)
  <-> In tag seen \/ In tag tags.
Proof.
  revert seen; induction tags as [|t tags IH]; intros seen; cbn [fold_left].
  - cbn [In]. tauto.
  - rewrite IH. cbn [In].
    destruct (existsb (PyStr.eqb t) seen) eqn:E.
    + apply existsb_exists in E as [x [Hx Heq]].
      apply pystr_eqb_eq in Heq. subst x.
      split; [tauto | intros [H | [<- | H]]; tauto].
    + rewrite in_app_iff. cbn [In]. tauto.
Qed.

Lemma keep_first_occurrences_In (tags : list pystr) (tag : pystr) :
  In tag (keep_first_occurrences tags) <-> In tag tags.
Proof.
  unfold keep_first_occurrences. rewrite keep_first_occurrences_from.
  cbn [In]. tauto.
Qed.

(** At most one tag opens at a position. *)
Lemma tag_opening_at_spec (s tag : pystr) :
  tag_opening_at s = Some tag
  <-> In tag heading_tags /\ starts_with (tag_marker tag) s = true.
Proof.
  unfold tag_opening_at, heading_tags. cbn [find In]. split.
  - repeat match goal with
           | |- context [if starts_with ?m s then _ else _] =>
               destruct (starts_with m s) eqn:?
           end;
      intros H; try discriminate; injection H as <-; tauto.
  - intros [Hin Hs].
    destruct Hin as [<- | [<- | [<- | [<- | []]]]];
      apply starts_with_spec in Hs as [rest ->]; reflexivity.
Qed.

Lemma tags_in_scan_order_In (s tag : pystr) :
  In tag (tags_in_scan_order s)
  <-> In tag heading_tags /\ contains (tag_marker tag) s = true.
Proof.
  induction s as [|c s IH].
  - cbn. split; [tauto|]. intros [Hin H].
    destruct Hin as [<- | [<- | [<- | [<- | []]]]]; discriminate.
  - cbn [tags_in_scan_order contains]. rewrite orb_true_iff.
    destruct (tag_opening_at (c :: s)) as [t|] eqn:E.
    + apply tag_opening_at_spec in E as [Hin Hs]. cbn [In]. rewrite IH.
      split.
      * intros [<- | [H1 H2]]; tauto.
      * intros [H1 [H2 | H2]]; [|tauto].
        left. assert (Ht : tag_opening_at (c :: s) = Some tag)
          by (apply tag_opening_at_spec; tauto).
        assert (Ht' : tag_opening_at (c :: s) = Some t)
          by (apply tag_opening_at_spec; tauto).
        congruence.
    + rewrite IH. split; [tauto|]. intros [H1 [H2 | H2]]; [|tauto].
      assert (Ht : tag_opening_at (c :: s) = Some tag)
        by (apply tag_opening_at_spec; tauto).
      congruence.
Qed.

Lemma heading_tags_NoDup : NoDup heading_tags.
Proof.
  unfold heading_tags.
  repeat constructor; cbn [In]; intuition discriminate.
Qed.

(** C3, as the code has it.  The hierarchy holds, in the fixed order h1,
    h2, h3, p of the tests, the tags whose opening ['<tag'] occurs somewhere
    in the text; no tag is repeated; these are the tags a scan of the text
    meets, but their order does not follow the text. *)
Theorem text_hierarchy_fixed_order (L : PyLib) (jsx_code : pystr) :
  let hierarchy := txt_hierarchy (_analyze_text_patterns L jsx_code) in
  hierarchy
  = filter (fun tag => contains (tag_marker tag) jsx_code) heading_tags
  /\ NoDup hierarchy
  /\ (forall tag,
        In tag hierarchy <-> In tag (hierarchy_by_first_occurrence jsx_code)).
Proof.
  intros hierarchy.
  assert (Hfilter :
    hierarchy
    = filter (fun tag => contains (tag_marker tag) jsx_code) heading_tags).
  { subst hierarchy. unfold _analyze_text_patterns, append_if, heading_tags.
    cbn [txt_hierarchy filter].
    change (tag_marker (py "h1")) with (py "<h1").
    change (tag_marker (py "h2")) with (py "<h2").
    change (tag_marker (py "h3")) with (py "<h3").
    change (tag_marker (py "p")) with (py "<p").
    destruct (contains (py "<h1") jsx_code), (contains (py "<h2") jsx_code),
      (contains (py "<h3") jsx_code), (contains (py "<p") jsx_code);
      reflexivity. }
  split; [exact Hfilter|]. rewrite Hfilter. split.
  - apply NoDup_filter, heading_tags_NoDup.
  - intros tag. unfold hierarchy_by_first_occurrence.
    rewrite keep_first_occurrences_In, tags_in_scan_order_In, filter_In.
    tauto.
Qed.

(** C3, as the specification words it, fails: in a text whose paragraph
    comes before its heading the hierarchy still starts with the heading. *)
Lemma text_hierarchy_not_in_text_order :
  let jsx_code := py "<div><p>Intro</p><h1>Title</h1></div>" in
  txt_hierarchy (_analyze_text_patterns plain_lib jsx_code) = [py "h1"; py "p"]
  /\ hierarchy_by_first_occurrence jsx_code = [py "p"; py "h1"]
  /\ txt_hierarchy (_analyze_text_patterns plain_lib jsx_code)
     <> hierarchy_by_first_occurrence jsx_code.
Proof.
  cbv zeta. split; [reflexivity|]. split; [reflexivity|].
  vm_compute. discriminate.
Qed.

(** ** The key sanitizer *)

Lemma key_char_underscore : key_char underscore = true.
Proof. reflexivity. Qed.

Lemma sub_unsafe_chars_nth (s : pystr) (i : nat) :
  nth_error (sub_unsafe_chars s) i
  = option_map (fun c => if key_char c then c else underscore) (nth_error s i).
Proof. unfold sub_unsafe_chars. apply nth_error_map. Qed.

Lemma sub_unsafe_chars_safe (s : pystr) :
  Forall (fun c => key_char c = true) (sub_unsafe_chars s).
Proof.
  unfold sub_unsafe_chars. apply Forall_map, Forall_forall. intros c _.
  destruct (key_char c) eqn:E; [exact E | reflexivity].
Qed.

Lemma sub_unsafe_chars_id (s : pystr) :
  only_key_chars s = true -> sub_unsafe_chars s = s.
Proof.
  unfold only_key_chars, sub_unsafe_chars. intros H.
  rewrite forallb_forall in H.
  rewrite <- (map_id s) at 2. apply map_ext_in. intros c Hc.
  now rewrite (H c Hc).
Qed.

Lemma doubled_underscore_cons (c : N) (s : pystr) :
  contains (py "__") (c :: s)
  = (N.eqb c underscore && starts_with (py "_") s) || contains (py "__") s.
Proof.
  cbn [contains]. f_equal. change (py "__") with [underscore; underscore].
  change (py "_") with [underscore]. cbn [starts_with].
  now rewrite (N.eqb_sym underscore c).
Qed.

Lemma starts_with_underscore_cons (c : N) (s : pystr) :
  starts_with (py "_") (c :: s) = N.eqb c underscore.
Proof.
  change (py "_") with [underscore]. cbn [starts_with].
  now rewrite andb_true_r, N.eqb_sym.
Qed.

Lemma collapse_runs_spec (s : pystr) (in_run : bool) :
  contains (py "__") (collapse_runs in_run s) = false
  /\ (in_run = true -> starts_with (py "_") (collapse_runs in_run s) = false).
Proof.
  revert in_run; induction s as [|c s IH]; intros in_run.
  - split; reflexivity.
  - cbn [collapse_runs]. destruct (N.eqb c underscore) eqn:E.
    + destruct (IH true) as [IH1 IH2]. destruct in_run.
      * split; [exact IH1 | intros _; now apply IH2].
      * split; [|discriminate].
        rewrite doubled_underscore_cons, IH1, (IH2 eq_refl).
        now rewrite andb_false_r.
    + destruct (IH false) as [IH1 _]. split.
      * now rewrite doubled_underscore_cons, E, IH1.
      * intros _. now rewrite starts_with_underscore_cons.
Qed.

Lemma collapse_runs_safe (s : pystr) (in_run : bool) :
  Forall (fun c => key_char c = true) s ->
  Forall (fun c => key_char c = true) (collapse_runs in_run s).
Proof.
  intros H; revert in_run; induction H as [|c s Hc Hs IH]; intros in_run.
  - constructor.
  - cbn [collapse_runs]. destruct (N.eqb c underscore); [destruct in_run|];
      try apply IH; constructor; auto.
Qed.

Lemma collapse_runs_others (s : pystr) (in_run : bool) :
  filter (fun c => negb (N.eqb c underscore)) (collapse_runs in_run s)
  = filter (fun c => negb (N.eqb c underscore)) s.
Proof.
  revert in_run; induction s as [|c s IH]; intros in_run; [reflexivity|].
  cbn [collapse_runs filter]. destruct (N.eqb c underscore) eqn:E.
  - destruct in_run; cbn [filter negb]; [|change (N.eqb underscore underscore) with true];
      cbn [negb]; apply IH.
  - cbn [filter]. rewrite E. cbn [negb]. f_equal. apply IH.
Qed.

Lemma collapse_runs_id (s : pystr) (in_run : bool) :
  contains (py "__") s = false ->
  (in_run = true -> starts_with (py "_") s = false) ->
  collapse_runs in_run s = s.
Proof.
  revert in_run; induction s as [|c s IH]; intros in_run H Hrun; [reflexivity|].
  rewrite doubled_underscore_cons in H. apply orb_false_iff in H as [H1 H2].
  cbn [collapse_runs]. destruct (N.eqb c underscore) eqn:E.
  - destruct in_run.
    + specialize (Hrun eq_refl). rewrite starts_with_underscore_cons in Hrun.
      congruence.
    + apply N.eqb_eq in E. subst c. f_equal. apply IH; [exact H2|].
      intros _. cbn [andb] in H1. exact H1.
  - f_equal. apply IH; [exact H2 | discriminate].
Qed.

Lemma collapse_runs_doubled (before after : pystr) (in_run : bool) :
  collapse_runs in_run (before ++ py "__" ++ after)
  = collapse_runs in_run (before ++ py "_" ++ after).
Proof.
  revert in_run; induction before as [|c before IH]; intros in_run.
  - change (py "__") with [underscore; underscore].
    change (py "_") with [underscore]. cbn [app collapse_runs].
    change (N.eqb underscore underscore) with true. cbn iota.
    now destruct in_run.
  - cbn [app collapse_runs].
    destruct (N.eqb c underscore); [destruct in_run|]; now rewrite IH.
Qed.

(** What [lstrip] removes is a run of the character. *)
Lemma lstrip_spec (ch : N) (s : pystr) :
  exists removed,
    s = removed ++ lstrip ch s
    /\ Forall (eq ch) removed
    /\ starts_with [ch] (lstrip ch s) = false.
Proof.
  induction s as [|c s IH].
  - exists []. repeat split; constructor.
  - cbn [lstrip]. destruct (N.eqb c ch) eqn:E.
    + apply N.eqb_eq in E. subst c. destruct IH as [removed [H1 [H2 H3]]].
      exists (ch :: removed). repeat split.
      * cbn [app]. now f_equal.
      * now constructor.
      * exact H3.
    + exists []. repeat split; [constructor|].
      cbn [starts_with]. now rewrite N.eqb_sym, E.
Qed.

Lemma lstrip_id (ch : N) (s : pystr) :
  starts_with [ch] s = false -> lstrip ch s = s.
Proof.
  destruct s as [|c s]; [reflexivity|]. cbn [starts_with lstrip].
  rewrite andb_true_r, N.eqb_sym. now intros ->.
Qed.

Lemma strip_spec (ch : N) (s : pystr) :
  exists left right,
    s = left ++ strip ch s ++ right
    /\ Forall (eq ch) left /\ Forall (eq ch) right
    /\ starts_with [ch] (strip ch s) = false
    /\ ends_with [ch] (strip ch s) = false.
Proof.
  unfold strip, rstrip.
  destruct (lstrip_spec ch s) as [left [H1 [H2 H3]]].
  destruct (lstrip_spec ch (rev (lstrip ch s))) as [right [H4 [H5 H6]]].
  exists left, (rev right).
  assert (Hl : lstrip ch s = rev (lstrip ch (rev (lstrip ch s))) ++ rev right).
  { rewrite <- rev_app_distr, <- H4. now rewrite rev_involutive. }
  repeat split.
  - now rewrite <- Hl.
  - exact H2.
  - apply Forall_rev. exact H5.
  - rewrite Hl in H3.
    destruct (rev (lstrip ch (rev (lstrip ch s)))) as [|c r]; [reflexivity|].
    exact H3.
  - unfold ends_with. now rewrite rev_involutive.
Qed.

Lemma strip_id (ch : N) (s : pystr) :
  starts_with [ch] s = false -> ends_with [ch] s = false -> strip ch s = s.
Proof.
  intros H1 H2. unfold strip, rstrip. rewrite (lstrip_id _ _ H1).
  unfold ends_with in H2. cbn [rev app] in H2.
  rewrite (lstrip_id _ _ H2). apply rev_involutive.
Qed.

Lemma truncate_spec (n : nat) (s : pystr) :
  truncate n s = firstn n s /\ length (truncate n s) <= n.
Proof.
  unfold truncate. destruct (Nat.ltb_spec n (length s)) as [H|H].
  - split; [reflexivity | apply firstn_le_length].
  - split; [now rewrite firstn_all2 | exact H].
Qed.

Lemma starts_with_prefix (ch : N) (p rest : pystr) :
  starts_with [ch] (p ++ rest) = false -> starts_with [ch] p = false.
Proof. destruct p as [|c p]; [reflexivity | intros H; exact H]. Qed.

(** The key is always made of key characters, free of doubled underscores,
    without a leading underscore and at most 100 characters long. *)
Lemma create_safe_jsx_key_shape (component_name : pystr) :
  let key := _create_safe_jsx_key component_name in
  only_key_chars key = true
  /\ no_doubled_underscore key = true
  /\ starts_with (py "_") key = false
  /\ length key <= 100.
Proof.
  cbv zeta. unfold _create_safe_jsx_key.
  set (collapsed := sub_underscore_runs (sub_unsafe_chars component_name)).
  destruct (truncate_spec 100 (strip underscore collapsed)) as [Ht Hlen].
  destruct (strip_spec underscore collapsed) as [l [r [Hs [_ [_ [Hhead _]]]]]].
  set (stripped := strip underscore collapsed) in *.
  assert (Hsplit : stripped = truncate 100 stripped ++ skipn 100 stripped)
    by (rewrite Ht; symmetry; apply firstn_skipn).
  assert (Hsafe : Forall (fun c => key_char c = true) collapsed)
    by apply collapse_runs_safe, sub_unsafe_chars_safe.
  repeat split.
  - unfold only_key_chars. apply forallb_forall. intros c Hc.
    rewrite Forall_forall in Hsafe. apply Hsafe. rewrite Hs.
    apply in_or_app. right. apply in_or_app. left.
    rewrite Hsplit. apply in_or_app. now left.
  - unfold no_doubled_underscore. apply negb_true_iff.
    apply (not_contains_infix _ [] _ (skipn 100 stripped)). cbn [app].
    rewrite <- Hsplit. apply (not_contains_infix _ l _ r). rewrite <- Hs.
    apply collapse_runs_spec.
  - apply (starts_with_prefix underscore _ (skipn 100 stripped)).
    rewrite <- Hsplit. exact Hhead.
  - exact Hlen.
Qed.

(** C7. The sanitizer replaces every character outside the class of key
    characters by an underscore, turns every run of underscores into one,
    removes the underscores at both ends and then keeps the first 100
    characters; on "My Component!!2" the key is "My_Component_2", made of
    key characters only, with no doubled, leading or trailing underscore. *)
Theorem create_safe_jsx_key_steps :
  (forall name,
     _create_safe_jsx_key name
     = truncate 100
         (strip underscore (sub_underscore_runs (sub_unsafe_chars name))))
  /\ (forall s i,
        nth_error (sub_unsafe_chars s) i
        = option_map (fun c => if key_char c then c else underscore)
            (nth_error s i))
  /\ (forall s,
        no_doubled_underscore (sub_underscore_runs s) = true
        /\ (no_doubled_underscore s = true -> sub_underscore_runs s = s)
        /\ (forall before after,
              sub_underscore_runs (before ++ py "__" ++ after)
              = sub_underscore_runs (before ++ py "_" ++ after))
        /\ filter (fun c => negb (N.eqb c underscore)) (sub_underscore_runs s)
           = filter (fun c => negb (N.eqb c underscore)) s)
  /\ (forall s,
        no_outer_underscore (strip underscore s) = true
        /\ exists left right,
             s = left ++ strip underscore s ++ right
             /\ Forall (eq underscore) left /\ Forall (eq underscore) right)
  /\ (forall s, truncate 100 s = firstn 100 s /\ length (truncate 100 s) <= 100)
  /\ (forall name,
        let key := _create_safe_jsx_key name in
        only_key_chars key = true /\ no_doubled_underscore key = true
        /\ starts_with (py "_") key = false /\ length key <= 100)
  /\ (let key := _create_safe_jsx_key (py "My Component!!2") in
      key = py "My_Component_2"
      /\ only_key_chars key = true
      /\ no_doubled_underscore key = true
      /\ no_outer_underscore key = true).
Proof.
  split; [reflexivity|].
  split; [exact sub_unsafe_chars_nth|].
  split.
  { intros s. split; [|split; [|split]].
    - unfold no_doubled_underscore. apply negb_true_iff.
      apply collapse_runs_spec.
    - unfold no_doubled_underscore. rewrite negb_true_iff. intros H.
      apply collapse_runs_id; [exact H | discriminate].
    - intros before after. apply collapse_runs_doubled.
    - apply collapse_runs_others. }
  split.
  { intros s.
    destruct (strip_spec underscore s) as [l [r [H1 [H2 [H3 [H4 H5]]]]]].
    split.
    - unfold no_outer_underscore. change (py "_") with [underscore].
      now rewrite H4, H5.
    - now exists l, r. }
  split; [intros s; apply truncate_spec|].
  split; [exact create_safe_jsx_key_shape|].
  cbv zeta. repeat split; reflexivity.
Qed.

Lemma create_safe_jsx_key_steps_witness :
  sub_underscore_runs (py "My_Component_2") = py "My_Component_2".
Proof.
  exact (proj1 (proj2 (proj1 (proj2 (proj2 create_safe_jsx_key_steps))
                         (py "My_Component_2")))
           eq_refl).
Defined.

(** A name of 99 letters followed by an underscore and a letter: the
    truncation leaves the underscore at the end of the key. *)
Example truncated_key_ends_with_underscore :
  ends_with (py "_")
    (_create_safe_jsx_key (repeat 97%N 99 ++ py "_b")) = true.
Proof. reflexivity. Qed.

(** On a canonical name the sanitizer changes nothing. *)
Lemma create_safe_jsx_key_canonical (name : pystr) :
  canonical_key name = true -> _create_safe_jsx_key name = name.
Proof.
  unfold canonical_key, no_doubled_underscore, no_outer_underscore.
  rewrite !andb_true_iff, !negb_true_iff.
  intros [[[Hchars Hdouble] [Hhead Htail]] Hlen].
  unfold _create_safe_jsx_key, sub_underscore_runs.
  rewrite (sub_unsafe_chars_id _ Hchars).
  rewrite (collapse_runs_id _ Hdouble) by discriminate.
  rewrite (strip_id underscore name Hhead Htail).
  unfold truncate. apply Nat.leb_le in Hlen.
  destruct (Nat.ltb_spec 100 (length name)); [lia | reflexivity].
Qed.

(** C2, as the code has it.  Two distinct canonical names (key characters
    only, no doubled, leading or trailing underscore, at most 100
    characters) keep distinct keys, each being its own key. *)
Theorem create_safe_jsx_key_injective_on_canonical (name1 name2 : pystr) :
  canonical_key name1 = true ->
  canonical_key name2 = true ->
  name1 <> name2 ->
  _create_safe_jsx_key name1 <> _create_safe_jsx_key name2.
Proof.
  intros H1 H2 Hne.
  now rewrite (create_safe_jsx_key_canonical _ H1),
    (create_safe_jsx_key_canonical _ H2).
Qed.

Lemma create_safe_jsx_key_injective_on_canonical_witness :
  _create_safe_jsx_key (py "HeroBanner") <> _create_safe_jsx_key (py "Hero_Banner").
Proof.
  apply create_safe_jsx_key_injective_on_canonical;
    [reflexivity | reflexivity | discriminate].
Defined.

(** C2, as the specification words it, fails: a name with a blank and the
    same name with an underscore in its place are distinct and share their
    key. *)
Lemma create_safe_jsx_key_collision :
  py "Hero Banner" <> py "Hero_Banner"
  /\ _create_safe_jsx_key (py "Hero Banner")
     = _create_safe_jsx_key (py "Hero_Banner").
Proof. split; [discriminate | reflexivity]. Qed.

(** ** Complexity *)

(** C6. The complexity score is 0.5 times the count of ['<div'] plus 1.0
    times the count of ['<img'] plus 0.3 times the count of ['style='] plus
    0.2 times the count of ['className='], in double precision; the level is
    "simple" below 5, "moderate" below 15 and "complex" from there on.  A
    text with four ['<div'] and none of the others scores 2.0, is "simple"
    and has nested children. *)
Theorem complexity_score_and_level (L : PyLib) :
  (forall jsx_code category,
     let score := complexity_score jsx_code in
     let level :=
       meta_complexity (_generate_component_metadata L jsx_code category) in
     score
     = (float_of_count (count (py "<div") jsx_code) * 0.5
        + float_of_count (count (py "<img") jsx_code) * 1.0
        + float_of_count (count (py "style=") jsx_code) * f0_3
        + float_of_count (count (py "className=") jsx_code) * f0_2)%float
     /\ (level = simple <-> (score <? 5)%float = true)
     /\ (level = moderate <->
         (score <? 5)%float = false /\ (score <? 15)%float = true)
     /\ (level = complex <->
         (score <? 5)%float = false /\ (score <? 15)%float = false))
  /\ (forall jsx_code category,
        count (py "<div") jsx_code = 4 ->
        count (py "<img") jsx_code = 0 ->
        count (py "style=") jsx_code = 0 ->
        count (py "className=") jsx_code = 0 ->
        complexity_score jsx_code = 2%float
        /\ meta_complexity (_generate_component_metadata L jsx_code category)
           = simple
        /\ children_structure (_analyze_jsx_structure jsx_code) = child_nested).
Proof.
  split.
  - intros jsx_code category score level. subst level.
    unfold _generate_component_metadata. cbn [meta_complexity].
    fold score. unfold complexity_of_score.
    split; [reflexivity|].
    destruct (score <? 5)%float; [|destruct (score <? 15)%float];
      repeat split; intros; try reflexivity; try discriminate;
      try (destruct H; discriminate).
  - intros jsx_code category Hdiv Himg Hstyle Hclass.
    assert (Hscore : complexity_score jsx_code = 2%float).
    { unfold complexity_score. rewrite Hdiv, Himg, Hstyle, Hclass.
      vm_compute. reflexivity. }
    repeat split.
    + exact Hscore.
    + unfold _generate_component_metadata. cbn [meta_complexity].
      rewrite Hscore. reflexivity.
    + unfold _analyze_jsx_structure. cbn [children_structure].
      rewrite Hdiv. reflexivity.
Qed.

Lemma complexity_score_and_level_witness :
  let jsx_code := py "<div><div><div><div>Hello</div></div></div></div>" in
  complexity_score jsx_code = 2%float
  /\ meta_complexity (_generate_component_metadata plain_lib jsx_code mixed)
     = simple
  /\ children_structure (_analyze_jsx_structure jsx_code) = child_nested.
Proof.
  exact (proj2 (complexity_score_and_level plain_lib)
           (py "<div><div><div><div>Hello</div></div></div></div>") mixed
           eq_refl eq_refl eq_refl eq_refl).
Defined.

(** The score is a double: with one ['<div'], one ['<img'], nine ['style=']
    and four ['className='] the exact sum of the terms is 5, the computed
    score lies just below it and the level is "simple". *)
Example complexity_score_is_rounded :
  let jsx_code :=
    py "<div<img" ++ concat (repeat (py "style=") 9)
    ++ concat (repeat (py "className=") 4) in
  (count (py "<div") jsx_code, count (py "<img") jsx_code,
   count (py "style=") jsx_code, count (py "className=") jsx_code)
  = (1, 1, 9, 4)
  /\ (complexity_score jsx_code <? 5)%float = true
  /\ complexity_of_score (complexity_score jsx_code) = simple.
Proof. vm_compute. repeat split. Qed.

(** ** Search *)

Ltac unfold_monad :=
  cbv beta delta [bind ret raise try_except lift_res print call] in *;
  cbn [world trace fst snd] in *.

Section SearchFacts.
Variable W : Type.
Variable S : Services W.

(** The embedding step always hands a vector back. *)
Lemma _create_jsx_embedding_total (text : pystr) (st : St W) :
  exists vector ext st',
    _create_jsx_embedding S text st = (Return vector, st')
    /\ trace st' = trace st ++ Called (CallEmbed text embedding_model) :: ext
    /\ (ext = [] \/ exists e, ext = [Printed (MsgEmbeddingFailed e)]).
Proof.
  unfold _create_jsx_embedding. unfold_monad.
  destruct (embeddings_create S text embedding_model (world st))
    as [[[|embedding data]|e] w'].
  - eexists _, _, _. split; [reflexivity|]. cbn [trace].
    rewrite <- app_assoc. split; [reflexivity|]. right. now exists IndexError.
  - eexists _, [], _. split; [reflexivity|]. cbn [trace]. split; [reflexivity|].
    now left.
  - eexists _, _, _. split; [reflexivity|]. cbn [trace].
    rewrite <- app_assoc. split; [reflexivity|]. right. now exists e.
Qed.

End SearchFacts.

(** C1, as the specification words it, fails: with the embedding provider
    out of service, a search over an index that holds a document returns
    it. *)
Lemma search_with_failing_embedding_returns_hits :
  let query_text := py "magazine layout with images" in
  fst (embeddings_create embedding_down_services query_text embedding_model
         (world hero_index))
  = Raise (ServiceError (py "embedding deployment unavailable"))
  /\ (exists hits,
        fst (search_jsx_components embedding_down_services query_text
               None None None 5 hero_index)
        = Return hits
        /\ map cd_component_name hits = [VStr (py "HeroBanner")])
  /\ fst (search_jsx_components embedding_down_services query_text
            None None None 5 hero_index)
     <> Return [].
Proof.
  cbv zeta. split; [reflexivity|]. split.
  - eexists. split; [vm_compute; reflexivity | reflexivity].
  - vm_compute. discriminate.
Qed.

(** ** Batch ingestion *)

Section BatchFacts.
Variable L : PyLib.
Variable FS : FileSystem.
Variable W : Type.
Variable S : Services W.

Lemma _create_jsx_embedding_world (text : pystr) (st : St W) :
  exists vector ext st',
    _create_jsx_embedding S text st = (Return vector, st')
    /\ world st' = snd (embeddings_create S text embedding_model (world st))
    /\ trace st' = trace st ++ ext.
Proof.
  unfold _create_jsx_embedding. unfold_monad.
  destruct (embeddings_create S text embedding_model (world st))
    as [[[|embedding data]|e] w']; cbn [snd];
    eexists _, _, _; (split; [reflexivity|]); cbn [world trace];
    (split; [reflexivity|]); rewrite <- ?app_assoc; reflexivity.
Qed.

Lemma _analyze_jsx_component_spec (jsx_path jsx_file : pystr) (st : St W) :
  match read_text FS jsx_path with
  | Return text =>
      exists document ext st',
        _analyze_jsx_component L FS S jsx_path jsx_file st
        = (Return (Some document), st')
        /\ world st'
           = snd (embeddings_create S
                    (_create_jsx_embedding_text
                       (_extract_jsx_patterns L text
                          (replace (py ".jsx") [] jsx_file)))
                    embedding_model (world st))
        /\ trace st' = trace st ++ ext
        /\ doc_component_name document = replace (py ".jsx") [] jsx_file
        /\ doc_jsx_code document = text
  | Raise e =>
      _analyze_jsx_component L FS S jsx_path jsx_file st
      = (Return None,
         {| world := world st;
            trace := trace st ++ [Printed (MsgAnalysisError jsx_file e)] |})
  end.
Proof.
  unfold _analyze_jsx_component.
  destruct (read_text FS jsx_path) as [text|e].
  - unfold_monad.
    match goal with
    | |- context [_create_jsx_embedding S ?t st] =>
        destruct (_create_jsx_embedding_world t st)
          as [vector [ext [st' [Hrun [Hworld Htrace]]]]]; rewrite Hrun
    end.
    eexists _, _, _. split; [reflexivity|].
    split; [exact Hworld|]. split; [exact Htrace|]. split; reflexivity.
  - unfold_monad. reflexivity.
Qed.

Lemma process_jsx_file_spec (components_folder jsx_file : pystr)
    (all_documents : list Document) (st : St W) :
  exists new ext st',
    process_jsx_file L FS S components_folder jsx_file all_documents st
    = (Return (all_documents ++ new), st')
    /\ world st'
       = world_after_embeddings S
           (map (embedding_text_of L FS components_folder)
              (filter (readable FS components_folder) [jsx_file]))
           (world st)
    /\ trace st' = trace st ++ Printed (MsgProcessing jsx_file) :: ext
    /\ map doc_component_name new
       = map (replace (py ".jsx") [])
           (filter (readable FS components_folder) [jsx_file])
    /\ map doc_jsx_code new
       = map (file_text FS components_folder)
           (filter (readable FS components_folder) [jsx_file])
    /\ (readable FS components_folder jsx_file = false ->
        In (Printed (MsgAnalysisFailed jsx_file)) ext).
Proof.
  unfold process_jsx_file. unfold_monad.
  pose proof (_analyze_jsx_component_spec
                (os_path_join FS components_folder jsx_file) jsx_file
                {| world := world st;
                   trace := trace st ++ [Printed (MsgProcessing jsx_file)] |})
    as Hspec.
  cbn [filter]. unfold embedding_text_of.
  assert (Hreadable :
    readable FS components_folder jsx_file
    = match read_text FS (os_path_join FS components_folder jsx_file) with
      | Return _ => true
      | Raise _ => false
      end) by reflexivity.
  assert (Htext :
    file_text FS components_folder jsx_file
    = match read_text FS (os_path_join FS components_folder jsx_file) with
      | Return text => text
      | Raise _ => []
      end) by reflexivity.
  destruct (read_text FS (os_path_join FS components_folder jsx_file))
    as [text|e]; rewrite Hreadable.
  - destruct Hspec
      as [document [ext [st' [Hrun [Hworld [Htrace [Hname Hcode]]]]]]].
    rewrite Hrun. eexists [document], _, _. split; [reflexivity|].
    cbn [world trace map]. rewrite Htrace, Htext. cbn [world trace] in *.
    rewrite <- !app_assoc.
    split; [exact Hworld|]. split; [reflexivity|]. rewrite Hname, Hcode.
    repeat split. discriminate.
  - rewrite Hspec. eexists [], _, _. rewrite app_nil_r.
    split; [reflexivity|]. cbn [world trace map]. rewrite <- !app_assoc.
    split; [reflexivity|]. split; [reflexivity|]. repeat split.
    intros _. cbn. auto.
Qed.

Lemma process_jsx_files_spec (components_folder : pystr)
    (jsx_files : list pystr) :
  forall (all_documents : list Document) (st : St W),
  exists new ext st',
    process_jsx_files L FS S components_folder jsx_files all_documents st
    = (Return (all_documents ++ new), st')
    /\ world st'
       = world_after_embeddings S
           (map (embedding_text_of L FS components_folder)
              (filter (readable FS components_folder) jsx_files))
           (world st)
    /\ trace st' = trace st ++ ext
    /\ map doc_component_name new
       = map (replace (py ".jsx") [])
           (filter (readable FS components_folder) jsx_files)
    /\ map doc_jsx_code new
       = map (file_text FS components_folder)
           (filter (readable FS components_folder) jsx_files)
    /\ (forall jsx_file,
          In jsx_file jsx_files -> In (Printed (MsgProcessing jsx_file)) ext)
    /\ (forall jsx_file,
          In jsx_file jsx_files ->
          readable FS components_folder jsx_file = false ->
          In (Printed (MsgAnalysisFailed jsx_file)) ext).
Proof.
  induction jsx_files as [|jsx_file jsx_files IH]; intros all_documents st.
  - exists [], [], st. rewrite !app_nil_r. cbn. repeat split; tauto.
  - cbn [process_jsx_files]. unfold bind.
    destruct (process_jsx_file_spec components_folder jsx_file all_documents st)
      as [new1 [ext1 [st1 [Hrun1 [Hworld1 [Htrace1 [Hname1 [Hcode1 Hfail1]]]]]]]].
    rewrite Hrun1.
    destruct (IH (all_documents ++ new1) st1)
      as [new2 [ext2 [st2 [Hrun2 [Hworld2 [Htrace2 [Hname2 [Hcode2
           [Hseen2 Hfail2]]]]]]]]].
    rewrite Hrun2.
    exists (new1 ++ new2), (Printed (MsgProcessing jsx_file) :: ext1 ++ ext2), st2.
    rewrite app_assoc. split; [reflexivity|].
    change (jsx_file :: jsx_files) with ([jsx_file] ++ jsx_files).
    rewrite filter_app, !map_app.
    split.
    { unfold world_after_embeddings in *. rewrite fold_left_app.
      now rewrite Hworld2, Hworld1. }
    rewrite Htrace2, Htrace1, <- app_assoc. split; [reflexivity|].
    rewrite Hname1, Hname2, Hcode1, Hcode2.
    repeat split.
    + intros f [<- | Hin]; [now left | right].
      apply in_or_app. right. now apply Hseen2.
    + intros f [<- | Hin] Hbad; right; apply in_or_app.
      * left. now apply Hfail1.
      * right. now apply Hfail2.
Qed.

Lemma match_nonempty (A B : Type) (xs : list A) (x y : B) :
  xs <> [] -> match xs with [] => x | _ :: _ => y end = y.
Proof. destruct xs; [contradiction | reflexivity]. Qed.

Lemma report_upload_failures_total (result : list IndexingResult) :
  forall (failed_count : nat) (st : St W),
  exists total ext,
    report_upload_failures result failed_count st
    = (Return total, {| world := world st; trace := trace st ++ ext |}).
Proof.
  induction result as [|res result IH]; intros failed_count st.
  - exists failed_count, []. rewrite app_nil_r. now destruct st.
  - cbn [report_upload_failures]. destruct (negb (ir_succeeded res)).
    + unfold_monad.
      destruct (IH (failed_count + 1)
                  {| world := world st;
                     trace := trace st
                              ++ [Printed (MsgUploadItemFailed (ir_key res)
                                             (ir_error_message res))] |})
        as [total [ext Hrun]].
      rewrite Hrun. cbn [world trace]. rewrite <- app_assoc.
      now eexists _, _.
    + apply IH.
Qed.

Lemma _upload_jsx_to_search_index_total (documents : list Document)
    (st : St W) :
  exists ext st',
    _upload_jsx_to_search_index S documents st = (Return tt, st')
    /\ world st' = snd (upload_documents S documents (world st))
    /\ trace st' = trace st ++ Called (CallUpload documents) :: ext.
Proof.
  unfold _upload_jsx_to_search_index. unfold_monad.
  destruct (upload_documents S documents (world st)) as [[result|e] w'];
    cbn [snd].
  - match goal with
    | |- context [report_upload_failures result 0 ?s] =>
        destruct (report_upload_failures_total result 0 s)
          as [total [ext Hrun]]; rewrite Hrun
    end.
    cbn [world trace].
    destruct (total =? 0); eexists _, _; (split; [reflexivity|]);
      cbn [world trace]; (split; [reflexivity|]);
      rewrite <- !app_assoc; reflexivity.
  - eexists _, _. split; [reflexivity|]. cbn [world trace].
    split; [reflexivity|]. rewrite <- !app_assoc. reflexivity.
Qed.

(** The count request and what is made of its answer. *)
Lemma _get_jsx_document_count_answer (st : St W) :
  _get_jsx_document_count S st
  = (Return (count_answer (fst (search S count_request (world st)))),
     {| world := snd (search S count_request (world st));
        trace :=
          trace st ++ Called (CallSearch count_request)
          :: match fst (search S count_request (world st)) with
             | Return _ => []
             | Raise e => [Printed (MsgCountError e)]
             end |}).
Proof.
  unfold _get_jsx_document_count. unfold_monad.
  change {| req_search_text := Some (py "*"); req_top := 0;
            req_include_total_count := true; req_vector_queries := [];
            req_select := []; req_filter := None |} with count_request.
  destruct (search S count_request (world st)) as [[results|e] w'];
    cbn [fst snd count_answer].
  - destruct (sr_count results) as [total_count|]; [|reflexivity].
    destruct (Z.eqb_spec total_count 0) as [->|_]; reflexivity.
  - cbn [world trace]. now rewrite <- app_assoc.
Qed.

(** C9, as the code has it.  Once the folder is known to hold component
    files, a file that cannot be read yields no document and is reported as
    failed, every file of the folder is still processed, the documents of
    the readable files, in the order of the files, are uploaded in one
    request, and the run ends normally after printing the number of
    documents it assembled and then the answer of the index to a count
    request, 0 when that request raises or gives no count.  When no file
    could be read nothing is uploaded and the run says so. *)
Theorem batch_survives_file_failures (components_folder : pystr)
    (names : list pystr) (st st0 : St W) :
  os_path_exists FS components_folder = true ->
  initialize_jsx_search_index S st = (Return false, st0) ->
  os_listdir FS components_folder = Return names ->
  let jsx_files := filter (ends_with (py ".jsx")) names in
  jsx_files <> [] ->
  let good := filter (readable FS components_folder) jsx_files in
  exists documents loop_events final_events st',
    process_jsx_components L FS S components_folder st = (Return tt, st')
    /\ trace st'
       = trace st0
         ++ [Printed MsgProcessingStart;
             Printed (MsgFilesFound (length jsx_files))]
         ++ loop_events ++ final_events
    /\ map doc_component_name documents = map (replace (py ".jsx") []) good
    /\ map doc_jsx_code documents = map (file_text FS components_folder) good
    /\ (forall jsx_file,
          In jsx_file jsx_files ->
          In (Printed (MsgProcessing jsx_file)) loop_events)
    /\ (forall jsx_file,
          In jsx_file jsx_files ->
          readable FS components_folder jsx_file = false ->
          In (Printed (MsgAnalysisFailed jsx_file)) loop_events)
    /\ let loop_world :=
         world_after_embeddings S
           (map (embedding_text_of L FS components_folder) good)
           (world st0) in
       match documents with
       | [] =>
           final_events = [Printed MsgNoDocuments] /\ world st' = loop_world
       | _ :: _ =>
           let count_reply :=
             search S count_request
               (snd (upload_documents S documents loop_world)) in
           world st' = snd count_reply
           /\ exists upload_events,
                final_events
                = Called (CallUpload documents) :: upload_events
                  ++ [Printed (MsgStored (length documents));
                      Called (CallSearch count_request)]
                  ++ match fst count_reply with
                     | Return _ => []
                     | Raise e => [Printed (MsgCountError e)]
                     end
                  ++ [Printed (MsgFinalCount (count_answer (fst count_reply)))]
       end.
Proof.
  intros Hexists Hinit Hlist jsx_files Hfiles good.
  unfold process_jsx_components. rewrite Hexists. cbn [negb].
  unfold bind at 1. rewrite Hinit. unfold bind at 1. unfold print at 1.
  unfold bind at 1. unfold lift_res. rewrite Hlist. fold jsx_files.
  rewrite (@match_nonempty _ _ jsx_files _ _ Hfiles).
  unfold ingest_jsx_files. unfold bind at 1. unfold print at 1.
  unfold bind at 1.
  match goal with
  | |- context [process_jsx_files L FS S components_folder jsx_files [] ?s] =>
      destruct (process_jsx_files_spec components_folder jsx_files [] s)
        as [documents [loop_events [st1 [Hrun [Hworld [Htrace [Hname [Hcode
             [Hseen Hfail]]]]]]]]]; rewrite Hrun
  end.
  cbn [app trace world] in *. fold good in Hworld.
  destruct documents as [|d documents].
  - unfold print. eexists [], loop_events, _, _. split; [reflexivity|].
    cbn [trace world]. rewrite Htrace, <- !app_assoc. cbn [app].
    split; [reflexivity|]. repeat split; assumption.
  - unfold bind at 1.
    destruct (_upload_jsx_to_search_index_total (d :: documents) st1)
      as [upload_events [st2 [Hup [Hworld2 Htrace2]]]].
    rewrite Hup. unfold bind at 1. unfold print at 1. unfold bind at 1.
    rewrite _get_jsx_document_count_answer. unfold print.
    cbn [world trace].
    eexists (d :: documents), loop_events, _, _.
    split; [reflexivity|]. cbn [world trace].
    rewrite Htrace2, Htrace, Hworld2, Hworld, <- !app_assoc. cbn [app].
    split; [reflexivity|].
    repeat split; try assumption.
    exists upload_events. reflexivity.
Qed.

End BatchFacts.

Lemma batch_survives_file_failures_witness :
  let components_folder := py "components" in
  let names :=
    [py "HeroBanner.jsx"; py "Locked.jsx"; py "README.md"; py "Binary.jsx"] in
  let st0 := snd (initialize_jsx_search_index demo_services empty_index) in
  let jsx_files := filter (ends_with (py ".jsx")) names in
  let good := filter (readable demo_fs components_folder) jsx_files in
  exists documents loop_events final_events st',
    process_jsx_components plain_lib demo_fs demo_services components_folder
      empty_index
    = (Return tt, st')
    /\ trace st'
       = trace st0
         ++ [Printed MsgProcessingStart;
             Printed (MsgFilesFound (length jsx_files))]
         ++ loop_events ++ final_events
    /\ map doc_component_name documents = map (replace (py ".jsx") []) good
    /\ map doc_jsx_code documents
       = map (file_text demo_fs components_folder) good
    /\ (forall jsx_file,
          In jsx_file jsx_files ->
          In (Printed (MsgProcessing jsx_file)) loop_events)
    /\ (forall jsx_file,
          In jsx_file jsx_files ->
          readable demo_fs components_folder jsx_file = false ->
          In (Printed (MsgAnalysisFailed jsx_file)) loop_events)
    /\ let loop_world :=
         world_after_embeddings demo_services
           (map (embedding_text_of plain_lib demo_fs components_folder) good)
           (world st0) in
       match documents with
       | [] =>
           final_events = [Printed MsgNoDocuments] /\ world st' = loop_world
       | _ :: _ =>
           let count_reply :=
             search demo_services count_request
               (snd (upload_documents demo_services documents loop_world)) in
           world st' = snd count_reply
           /\ exists upload_events,
                final_events
                = Called (CallUpload documents) :: upload_events
                  ++ [Printed (MsgStored (length documents));
                      Called (CallSearch count_request)]
                  ++ match fst count_reply with
                     | Return _ => []
                     | Raise e => [Printed (MsgCountError e)]
                     end
                  ++ [Printed (MsgFinalCount (count_answer (fst count_reply)))]
       end.
Proof.
  refine (@batch_survives_file_failures plain_lib demo_fs _ demo_services
            (py "components")
            [py "HeroBanner.jsx"; py "Locked.jsx"; py "README.md";
             py "Binary.jsx"]
            empty_index
            (snd (initialize_jsx_search_index demo_services empty_index))
            eq_refl eq_refl eq_refl _).
  discriminate.
Defined.

(** C9, as the specification words it, fails in its last part: in a batch
    of three component files of which two cannot be read, the run prints
    what follows and no message shows the number of failures. *)
Lemma batch_prints_no_failure_count :
  let components_folder := py "components" in
  let jsx_files := [py "HeroBanner.jsx"; py "Locked.jsx"; py "Binary.jsx"] in
  let run :=
    process_jsx_components plain_lib demo_fs demo_services components_folder
      empty_index in
  os_listdir demo_fs components_folder
  = Return [py "HeroBanner.jsx"; py "Locked.jsx"; py "README.md";
            py "Binary.jsx"]
  /\ length (filter (fun f => negb (readable demo_fs components_folder f))
               jsx_files) = 2
  /\ fst run = Return tt
  /\ printed (trace (snd run))
     = [ MsgIndexFound jsx_index_name;
         MsgDataAbsent;
         MsgIndexWithoutData;
         MsgProcessingStart;
         MsgFilesFound 3;
         MsgProcessing (py "HeroBanner.jsx");
         MsgDocumentCreated (py "HeroBanner.jsx");
         MsgProcessing (py "Locked.jsx");
         MsgAnalysisError (py "Locked.jsx") (OSError (py "permission denied"));
         MsgAnalysisFailed (py "Locked.jsx");
         MsgProcessing (py "Binary.jsx");
         MsgAnalysisError (py "Binary.jsx") UnicodeDecodeError;
         MsgAnalysisFailed (py "Binary.jsx");
         MsgUploadDone 1;
         MsgUploadAllSucceeded;
         MsgStored 1;
         MsgFinalCount 1 ]
  /\ existsb (shows_number 2) (trace (snd run)) = false.
Proof.
  cbv zeta. split; [reflexivity|]. split; [reflexivity|].
  split; [vm_compute; reflexivity|].
  split; vm_compute; reflexivity.
Qed.

(** ** The extractors on concrete texts *)

Lemma images_without_img_tag_witness :
  let jsx_code := py "<div style={{display: 'flex'}}><p>Hello</p></div>" in
  img_count (_analyze_image_patterns plain_lib jsx_code) = 0
  /\ img_arrangement (_analyze_image_patterns plain_lib jsx_code) <> arr_single
  /\ img_arrangement (_analyze_image_patterns plain_lib jsx_code)
     <> arr_gallery.
Proof.
  exact (@images_without_img_tag plain_lib
           (py "<div style={{display: 'flex'}}><p>Hello</p></div>") eq_refl).
Defined.

Lemma image_arrangement_precedence_witness :
  img_arrangement
    (_analyze_image_patterns plain_lib
       (py "<div style={{display: 'flex'}} className='photo-" ++ py "GrId"
        ++ py "'><img src='a.png'/><img src='b.png'/></div>"))
  = arr_grid.
Proof.
  exact (proj2 (image_arrangement_precedence plain_lib)
           (py "<div style={{display: 'flex'}} className='photo-") (py "GrId")
           (py "'><img src='a.png'/><img src='b.png'/></div>") eq_refl).
Defined.

Lemma classify_by_name_keyword_witness :
  (forall jsx_code,
     _classify_component_category plain_lib (py "TextImageCard") jsx_code
     = image_focused)
  /\ _classify_component_category plain_lib (py "Footer")
       (py "<div><span>Contact</span></div>")
     = mixed.
Proof.
  split.
  - exact (proj1 (classify_by_name_keyword plain_lib (py "TextImageCard"))
             (py "image") image_focused eq_refl).
  - exact (proj2 (classify_by_name_keyword plain_lib (py "Footer")) eq_refl
             (py "<div><span>Contact</span></div>")
             eq_refl eq_refl eq_refl eq_refl).
Defined.

Lemma classify_by_content_witness :
  let jsx_code := py "<div><h3>a</h3><h3>b</h3><h3>c</h3><img src='x'/></div>" in
  let imgs := count (py "<img") jsx_code in
  let texts :=
    count (py "<h1") jsx_code + count (py "<h2") jsx_code
    + count (py "<p") jsx_code in
  let category := _classify_component_category plain_lib (py "Footer") jsx_code in
  (category = image_focused <-> imgs > texts)
  /\ (category = text_focused <-> ~ imgs > texts /\ texts > 2 * imgs)
  /\ (category = mixed <-> ~ imgs > texts /\ ~ texts > 2 * imgs).
Proof.
  exact (@classify_by_content plain_lib (py "Footer")
           (py "<div><h3>a</h3><h3>b</h3><h3>c</h3><img src='x'/></div>")
           eq_refl).
Defined.

(** Three ['<h3'] headings and nothing else: they do not count as text
    elements, and the category is "mixed", not "text_focused". *)
Example h3_headings_are_not_counted :
  _classify_component_category plain_lib (py "Footer")
    (py "<div><h3>a</h3><h3>b</h3><h3>c</h3></div>")
  = mixed.
Proof. reflexivity. Qed.

(** * Further properties *)

(** ** The key sanitizer on short and on foreign names *)

Lemma collapse_runs_length (s : pystr) (in_run : bool) :
  length (collapse_runs in_run s) <= length s.
Proof.
  revert in_run; induction s as [|c s IH]; intros in_run; [reflexivity|].
  cbn [collapse_runs length].
  pose proof (IH true). pose proof (IH false).
  destruct (N.eqb c underscore); [destruct in_run|]; cbn [length]; lia.
Qed.

Lemma strip_length (ch : N) (s : pystr) : length (strip ch s) <= length s.
Proof.
  destruct (strip_spec ch s) as [l [r [H _]]].
  rewrite H at 2. rewrite !length_app. lia.
Qed.

(** X1. A name of at most 100 characters gets a canonical key, and the
    sanitizer leaves that key as it is. *)
Theorem create_safe_jsx_key_idempotent_short (name : pystr) :
  length name <= 100 ->
  canonical_key (_create_safe_jsx_key name) = true
  /\ _create_safe_jsx_key (_create_safe_jsx_key name)
     = _create_safe_jsx_key name.
Proof.
  intros Hlen.
  assert (Hcanon : canonical_key (_create_safe_jsx_key name) = true).
  { destruct (create_safe_jsx_key_shape name) as [H1 [H2 [H3 H4]]].
    unfold canonical_key, no_outer_underscore.
    rewrite H1, H2, H3. cbn [andb negb].
    rewrite andb_true_iff. split; [|now apply Nat.leb_le].
    apply negb_true_iff.
    unfold _create_safe_jsx_key in *.
    set (stripped :=
           strip underscore (sub_underscore_runs (sub_unsafe_chars name))).
    assert (Hshort : length stripped <= 100).
    { subst stripped. etransitivity; [apply strip_length|].
      etransitivity; [apply collapse_runs_length|].
      unfold sub_unsafe_chars. now rewrite length_map. }
    unfold truncate.
    destruct (Nat.ltb_spec 100 (length stripped)); [lia|].
    subst stripped.
    destruct (strip_spec underscore
                (sub_underscore_runs (sub_unsafe_chars name)))
      as [l [r [_ [_ [_ [_ Htail]]]]]].
    exact Htail. }
  split; [exact Hcanon|]. now apply create_safe_jsx_key_canonical.
Qed.

Lemma create_safe_jsx_key_idempotent_short_witness :
  canonical_key (_create_safe_jsx_key (py "My Component!!2")) = true
  /\ _create_safe_jsx_key (_create_safe_jsx_key (py "My Component!!2"))
     = _create_safe_jsx_key (py "My Component!!2").
Proof.
  apply create_safe_jsx_key_idempotent_short. cbn. lia.
Defined.

Lemma collapse_runs_underscores (s : pystr) (in_run : bool) :
  Forall (eq underscore) s ->
  collapse_runs in_run s = [] \/ collapse_runs in_run s = [underscore].
Proof.
  intros H; revert in_run; induction H as [|c s Hc Hs IH]; intros in_run.
  - now left.
  - subst c. cbn [collapse_runs].
    change (N.eqb underscore underscore) with true. cbn iota.
    assert (Htrue : collapse_runs true s = []).
    { clear IH. induction Hs as [|c s Hc Hs IHs]; [reflexivity|].
      subst c. cbn [collapse_runs].
      change (N.eqb underscore underscore) with true. exact IHs. }
    destruct in_run; rewrite Htrue; [now left | now right].
Qed.

(** X2. A name that holds no ASCII letter, digit, hyphen or equals sign
    (a name written in Hangul, say) gets the empty key. *)
Theorem create_safe_jsx_key_empty (name : pystr) :
  no_key_material name = true -> _create_safe_jsx_key name = [].
Proof.
  intros H. unfold no_key_material in H. rewrite forallb_forall in H.
  assert (Hus : Forall (eq underscore) (sub_unsafe_chars name)).
  { unfold sub_unsafe_chars. apply Forall_map, Forall_forall. intros c Hc.
    specialize (H c Hc). destruct (key_char c); [|reflexivity].
    cbn [negb orb] in H. apply N.eqb_eq in H. now subst c. }
  unfold _create_safe_jsx_key, sub_underscore_runs.
  destruct (collapse_runs_underscores false Hus) as [-> | ->]; reflexivity.
Qed.

Lemma create_safe_jsx_key_empty_witness :
  _create_safe_jsx_key [52980%N; 46300%N; 32%N; 95%N; 33%N] = [].
Proof. apply create_safe_jsx_key_empty. reflexivity. Defined.

(** ** Agreement between the extractors *)

Lemma count_from_present (sub s : pystr) :
  contains sub s = true -> sub <> [] -> 0 < count_from sub 0 s.
Proof.
  intros H Hsub. induction s as [|c s IH].
  - destruct sub; [contradiction | discriminate].
  - cbn [contains] in H. cbn [count_from].
    destruct (starts_with sub (c :: s)); [lia|].
    cbn [orb] in H. now apply IH.
Qed.

Lemma count_zero_iff (sub s : pystr) :
  sub <> [] -> (count sub s = 0 <-> contains sub s = false).
Proof.
  intros Hsub. split.
  - intros H. destruct (contains sub s) eqn:E; [|reflexivity].
    pose proof (@count_from_present sub s E Hsub) as Hpos.
    destruct sub; [contradiction|]. cbn [count] in H. lia.
  - apply count_absent.
Qed.

Section ExtractorAgreement.
Variable L : PyLib.

(** X3. The image count is 0 exactly when ['<img'] does not occur, and the
    arrangement never contradicts the count: "single" comes with one image,
    "flex" with two or more, "gallery" with four or more, "multiple" with
    none, two or three. *)
Theorem image_count_and_arrangement_agree (jsx_code : pystr) :
  let images := _analyze_image_patterns L jsx_code in
  (img_count images = 0 <-> contains (py "<img") jsx_code = false)
  /\ (img_arrangement images = arr_single -> img_count images = 1)
  /\ (img_arrangement images = arr_flex -> 2 <= img_count images)
  /\ (img_arrangement images = arr_gallery -> 4 <= img_count images)
  /\ (img_arrangement images = arr_multiple ->
      img_count images = 0 \/ img_count images = 2 \/ img_count images = 3).
Proof.
  cbv zeta. unfold _analyze_image_patterns. cbn [img_count img_arrangement].
  split; [apply count_zero_iff; discriminate|].
  set (n := count (py "<img") jsx_code).
  destruct (contains (py "grid") (str_lower L jsx_code));
    [repeat split; discriminate|].
  destruct (contains (py "flex") (str_lower L jsx_code)); cbn [andb];
    destruct (Nat.ltb_spec 1 n); destruct (Nat.eqb_spec n 1);
    destruct (Nat.ltb_spec 3 n);
    repeat split; intros; try discriminate; lia.
Qed.

Lemma contains_keyword_lower (kw before after : pystr) :
  Forall (fun c => (c < 128)%N) kw ->
  in_any_case kw kw ->
  forall jsx_code,
    contains (before ++ kw ++ after) jsx_code = true ->
    contains kw (str_lower L jsx_code) = true.
Proof.
  intros Hascii Hkw jsx_code H.
  apply contains_spec in H as [a [b ->]].
  replace (a ++ (before ++ kw ++ after) ++ b)
    with ((a ++ before) ++ kw ++ (after ++ b))
    by (now rewrite <- !app_assoc).
  unfold str_lower, lower. now apply contains_lower_word.
Qed.

(** X4. The layout method and the image arrangement agree on grids: a text
    laid out by [display: 'grid'] has the arrangement "grid", and one laid
    out by [display: 'flex'] that holds more than one image has the
    arrangement "grid" or "flex". *)
Theorem layout_method_and_arrangement_agree (jsx_code : pystr) :
  let layout := _analyze_layout_patterns L jsx_code in
  let images := _analyze_image_patterns L jsx_code in
  (lay_method layout = lay_grid -> img_arrangement images = arr_grid)
  /\ (lay_method layout = lay_flexbox -> 1 < img_count images ->
      img_arrangement images = arr_grid \/ img_arrangement images = arr_flex).
Proof.
  cbv zeta. unfold _analyze_layout_patterns, _analyze_image_patterns.
  cbn [lay_method img_arrangement img_count]. split.
  - destruct (contains (py "display: 'grid'") jsx_code) eqn:Hgrid.
    + intros _.
      rewrite (@contains_keyword_lower (py "grid") (py "display: '") (py "'"));
        [reflexivity | repeat constructor | reflexivity | exact Hgrid].
    + destruct (contains (py "display: 'flex'") jsx_code);
        [discriminate|].
      destruct (contains (py "position: 'absolute'") jsx_code); discriminate.
  - destruct (contains (py "display: 'grid'") jsx_code); [discriminate|].
    destruct (contains (py "display: 'flex'") jsx_code) eqn:Hflex.
    + intros _ Hn.
      rewrite (@contains_keyword_lower (py "flex") (py "display: '") (py "'"));
        [| repeat constructor | reflexivity | exact Hflex].
      apply Nat.ltb_lt in Hn. rewrite Hn. cbn [andb].
      destruct (contains (py "grid") (str_lower L jsx_code)); auto.
    + destruct (contains (py "position: 'absolute'") jsx_code); discriminate.
Qed.

(** X5. The responsive strategy of the layout and the mobile flag of the
    metadata agree: the word "responsive", in any case, sets both; a layout
    found responsive in a text not flagged as mobile owes it to ['@media'];
    and in a fixed layout the flag says whether "mobile" occurs. *)
Theorem responsive_strategy_and_mobile_flag_agree (jsx_code : pystr)
    (category : Category) :
  let layout := _analyze_layout_patterns L jsx_code in
  let metadata := _generate_component_metadata L jsx_code category in
  (contains (py "responsive") (str_lower L jsx_code) = true ->
   lay_responsive layout = strat_responsive
   /\ meta_mobile_optimized metadata = true)
  /\ (lay_responsive layout = strat_responsive ->
      meta_mobile_optimized metadata = false ->
      contains (py "@media") jsx_code = true)
  /\ (lay_responsive layout = strat_fixed ->
      meta_mobile_optimized metadata
      = contains (py "mobile") (str_lower L jsx_code)).
Proof.
  cbv zeta. unfold _analyze_layout_patterns, _generate_component_metadata.
  cbn [lay_responsive meta_mobile_optimized].
  destruct (contains (py "responsive") (str_lower L jsx_code));
    destruct (contains (py "@media") jsx_code);
    destruct (contains (py "mobile") (str_lower L jsx_code));
    cbn [orb]; repeat split; intros; try reflexivity; discriminate.
Qed.

(** X7. The text sent for embedding depends on the library only through
    [str.lower]: what the regular expressions extract (font sizes, colours,
    spacings, imports), the order of sets and the JSON printer have no part
    in it. *)
Theorem embedding_text_ignores_regex_results (L' : PyLib)
    (jsx_code component_name : pystr) :
  unicode_lower L = unicode_lower L' ->
  _create_jsx_embedding_text (_extract_jsx_patterns L jsx_code component_name)
  = _create_jsx_embedding_text
      (_extract_jsx_patterns L' jsx_code component_name).
Proof.
  intros H.
  assert (Hlower : forall s, str_lower L s = str_lower L' s)
    by (intros s; unfold str_lower; now rewrite H).
  unfold _create_jsx_embedding_text, _extract_jsx_patterns.
  cbn [an_category an_layout an_images an_text an_metadata an_keywords].
  unfold _generate_search_keywords, _classify_component_category,
    _analyze_image_patterns, _analyze_text_patterns, _analyze_layout_patterns,
    _generate_component_metadata.
  cbn [img_count img_arrangement txt_hierarchy txt_alignment lay_method
       lay_responsive meta_complexity].
  now rewrite !Hlower.
Qed.

End ExtractorAgreement.

(** X6. The hooks of the structure are those of useState, useEffect, memo
    that occur in the text, in that order and without repetition; the
    children are "nested" exactly when ['<div'] occurs more than three
    times, and "conditional" exactly when it does not and both ['?'] and
    [':'] occur. *)
Theorem jsx_structure_shape (jsx_code : pystr) :
  let structure := _analyze_jsx_structure jsx_code in
  hooks_used structure
  = filter (fun hook => contains hook jsx_code)
      [py "useState"; py "useEffect"; py "memo"]
  /\ NoDup (hooks_used structure)
  /\ (children_structure structure = child_nested <->
      3 < count (py "<div") jsx_code)
  /\ (children_structure structure = child_conditional <->
      count (py "<div") jsx_code <= 3
      /\ contains (py "?") jsx_code = true
      /\ contains (py ":") jsx_code = true).
Proof.
  cbv zeta.
  assert (Hhooks :
    hooks_used (_analyze_jsx_structure jsx_code)
    = filter (fun hook => contains hook jsx_code)
        [py "useState"; py "useEffect"; py "memo"]).
  { unfold _analyze_jsx_structure, append_if. cbn [hooks_used filter].
    destruct (contains (py "useState") jsx_code),
      (contains (py "useEffect") jsx_code), (contains (py "memo") jsx_code);
      reflexivity. }
  split; [exact Hhooks|]. split.
  - rewrite Hhooks. apply NoDup_filter.
    repeat constructor; cbn [In]; intuition discriminate.
  - unfold _analyze_jsx_structure. cbn [children_structure].
    destruct (Nat.ltb_spec 3 (count (py "<div") jsx_code)) as [Hn|Hn].
    + split; [split; [intros _; exact Hn | reflexivity]|].
      split; [discriminate | intros [Hle _]; lia].
    + destruct (contains (py "?") jsx_code), (contains (py ":") jsx_code);
        cbn [andb];
        (split; [split; [discriminate | intros; lia]|]);
        (split; [try discriminate; intros _; repeat split; assumption
                | intros [_ [H1 H2]]; try discriminate; reflexivity]).
Qed.

Lemma image_count_and_arrangement_agree_witness :
  img_count
    (_analyze_image_patterns plain_lib
       (py "<div><img src='a.png'/></div>")) = 1.
Proof.
  exact (proj1 (proj2 (image_count_and_arrangement_agree plain_lib
                         (py "<div><img src='a.png'/></div>")))
           eq_refl).
Defined.

Lemma layout_method_and_arrangement_agree_witness :
  img_arrangement
    (_analyze_image_patterns plain_lib
       (py "<div style={{display: 'grid'}}><img src='a.png'/></div>"))
  = arr_grid.
Proof.
  exact (proj1 (layout_method_and_arrangement_agree plain_lib
                  (py "<div style={{display: 'grid'}}><img src='a.png'/></div>"))
           eq_refl).
Defined.

Lemma responsive_strategy_and_mobile_flag_agree_witness :
  contains (py "@media")
    (py "<style>@media (max-width: 600px) {}</style><div>Hi</div>") = true.
Proof.
  exact (proj1 (proj2 (responsive_strategy_and_mobile_flag_agree plain_lib
                         (py "<style>@media (max-width: 600px) {}</style><div>Hi</div>")
                         mixed))
           eq_refl eq_refl).
Defined.

Lemma embedding_text_ignores_regex_results_witness :
  let other_lib :=
    {| unicode_lower := unicode_lower plain_lib;
       re_findall := fun _ s => [s];
       list_of_set := @rev pystr;
       json_dumps := fun _ => [] |} in
  let jsx_code := py "<div style={{color: 'red'}}><h1>Title</h1></div>" in
  _create_jsx_embedding_text
    (_extract_jsx_patterns plain_lib jsx_code (py "HeroBanner"))
  = _create_jsx_embedding_text
      (_extract_jsx_patterns other_lib jsx_code (py "HeroBanner")).
Proof.
  exact (@embedding_text_ignores_regex_results plain_lib
           {| unicode_lower := unicode_lower plain_lib;
              re_findall := fun _ s => [s];
              list_of_set := @rev pystr;
              json_dumps := fun _ => [] |}
           (py "<div style={{color: 'red'}}><h1>Title</h1></div>")
           (py "HeroBanner") eq_refl).
Defined.

(** ** Requests and messages of a run *)

Lemma requests_app (a b : list Event) :
  requests (a ++ b) = requests a ++ requests b.
Proof.
  induction a as [|[m|c] a IH]; cbn [app requests]; [reflexivity | exact IH|].
  now rewrite IH.
Qed.

Lemma printed_app (a b : list Event) :
  printed (a ++ b) = printed a ++ printed b.
Proof.
  induction a as [|[m|c] a IH]; cbn [app printed]; [reflexivity | | exact IH].
  now rewrite IH.
Qed.

Section ServiceFacts.
Variable W : Type.
Variable S : Services W.

(** X8. The embedding step never raises and sends one request.  It hands
    back the first embedding of the answer; when the provider raises or
    answers without data it hands back 1536 zeros instead. *)
Theorem _create_jsx_embedding_fallback (text : pystr) (st : St W) :
  exists vector st',
    _create_jsx_embedding S text st = (Return vector, st')
    /\ world st' = snd (embeddings_create S text embedding_model (world st))
    /\ requests (trace st')
       = requests (trace st) ++ [CallEmbed text embedding_model]
    /\ match fst (embeddings_create S text embedding_model (world st)) with
       | Return (embedding :: _) =>
           vector = embedding /\ printed (trace st') = printed (trace st)
       | _ =>
           vector = repeat 0%float 1536 /\ length vector = 1536
           /\ Forall (eq 0%float) vector
       end.
Proof.
  unfold _create_jsx_embedding. unfold_monad.
  destruct (embeddings_create S text embedding_model (world st))
    as [[[|embedding data]|e] w']; cbn [fst snd];
    eexists _, _; (split; [reflexivity|]); cbn [world trace];
    (split; [reflexivity|]);
    rewrite ?requests_app, ?printed_app; cbn [requests printed];
    rewrite ?app_nil_r; (split; [reflexivity|]);
    repeat split; try apply repeat_length;
    apply Forall_forall; intros x Hx; symmetry; exact (repeat_spec _ _ _ Hx).
Qed.

(** The steps of [initialize_jsx_search_index], by the answers of the
    services. *)
Lemma _check_jsx_index_has_data_cases (st : St W) :
  exists answer ext,
    _check_jsx_index_has_data S st
    = (Return answer,
       {| world := snd (search S has_data_request (world st));
          trace := trace st ++ Called (CallSearch has_data_request) :: ext |})
    /\ requests ext = []
    /\ answer
       = match fst (search S has_data_request (world st)) with
         | Return results =>
             match sr_rows results with [] => false | _ :: _ => true end
         | Raise _ => false
         end.
Proof.
  unfold _check_jsx_index_has_data. unfold_monad.
  change {| req_search_text := Some (py "*"); req_top := 1;
            req_include_total_count := true; req_vector_queries := [];
            req_select := []; req_filter := None |} with has_data_request.
  destruct (search S has_data_request (world st)) as [[results|e] w'];
    cbn [fst snd].
  - destruct (sr_rows results); cbn [Nat.ltb Nat.leb];
      eexists _, [_]; cbn [world trace]; rewrite <- !app_assoc;
      (split; [reflexivity|]); split; reflexivity.
  - eexists _, [_]. cbn [world trace]. rewrite <- !app_assoc.
    split; [reflexivity|]. split; reflexivity.
Qed.

Lemma initialize_jsx_search_index_cases (st : St W) :
  exists answer st',
    initialize_jsx_search_index S st = (Return answer, st')
    /\ match get_index S jsx_index_name (world st) with
       | (Return _, w1) =>
           world st' = snd (search S has_data_request w1)
           /\ requests (trace st')
              = requests (trace st)
                ++ [CallGetIndex jsx_index_name; CallSearch has_data_request]
           /\ answer
              = match fst (search S has_data_request w1) with
                | Return results =>
                    match sr_rows results with [] => false | _ :: _ => true end
                | Raise _ => false
                end
       | (Raise _, w1) =>
           world st' = snd (create_index S jsx_search_index w1)
           /\ requests (trace st')
              = requests (trace st)
                ++ [CallGetIndex jsx_index_name;
                    CallCreateIndex jsx_search_index]
           /\ answer = false
       end.
Proof.
  unfold initialize_jsx_search_index. unfold_monad.
  destruct (get_index S jsx_index_name (world st)) as [[[]|e] w1].
  - match goal with
    | |- context [_check_jsx_index_has_data S ?s] =>
        destruct (_check_jsx_index_has_data_cases s)
          as [answer [ext [Hrun [Hext Hanswer]]]]; rewrite Hrun
    end.
    cbn [world trace] in *.
    destruct answer; eexists _, _; (split; [reflexivity|]);
      cbn [world trace];
      repeat (rewrite ?requests_app; cbn [requests app]);
      rewrite ?Hext, <- ?app_assoc; cbn [app];
      repeat split; exact Hanswer.
  - cbn [world trace].
    destruct (create_index S jsx_search_index w1) as [[[]|e'] w2];
      eexists _, _; (split; [reflexivity|]); cbn [world trace snd];
      repeat (rewrite ?requests_app; cbn [requests app]);
      rewrite <- ?app_assoc; cbn [app]; repeat split.
Qed.

(** X9. Initialising the index never raises.  It answers [True] exactly
    when the index exists and a search finds a document in it; it asks for
    the creation of the index exactly when looking the index up raised, and
    then answers [False] whether or not the creation succeeded. *)
Theorem initialize_jsx_search_index_outcome (st : St W) :
  exists answer st',
    initialize_jsx_search_index S st = (Return answer, st')
    /\ (answer = true <->
        exists w1 results w2,
          get_index S jsx_index_name (world st) = (Return tt, w1)
          /\ search S has_data_request w1 = (Return results, w2)
          /\ sr_rows results <> [])
    /\ requests (trace st')
       = requests (trace st)
         ++ [ CallGetIndex jsx_index_name;
              match fst (get_index S jsx_index_name (world st)) with
              | Return _ => CallSearch has_data_request
              | Raise _ => CallCreateIndex jsx_search_index
              end ].
Proof.
  destruct (initialize_jsx_search_index_cases st)
    as [answer [st' [Hrun Hcases]]].
  exists answer, st'. split; [exact Hrun|].
  destruct (get_index S jsx_index_name (world st)) as [[[]|e] w1];
    cbn [fst]; destruct Hcases as [_ [Hreq Hanswer]].
  - split; [|exact Hreq]. rewrite Hanswer. split.
    + destruct (search S has_data_request w1) as [[results|e] w2] eqn:Hs;
        cbn [fst]; [|discriminate].
      destruct (sr_rows results) eqn:Hrows; [discriminate|]. intros _.
      exists w1, results, w2. split; [reflexivity|]. split; [exact Hs|].
      rewrite Hrows. discriminate.
    + intros [w1' [results [w2 [Hget [Hs Hrows]]]]].
      injection Hget as <-. rewrite Hs. cbn [fst].
      destruct (sr_rows results); [contradiction | reflexivity].
  - split; [|exact Hreq]. rewrite Hanswer. split; [discriminate|].
    intros [w1' [results [w2 [Hget _]]]]. discriminate.
Qed.

(** The loop over the upload results counts the results that did not
    succeed and prints one message for each. *)
Lemma report_upload_failures_spec (result : list IndexingResult) :
  forall (failed_count : nat) (st : St W),
    report_upload_failures result failed_count st
    = (Return
         (failed_count
          + length (filter (fun res => negb (ir_succeeded res)) result)),
       {| world := world st;
          trace := trace st ++ upload_failure_messages result |}).
Proof.
  unfold upload_failure_messages.
  induction result as [|res result IH]; intros failed_count st.
  - cbn. rewrite Nat.add_0_r, app_nil_r. now destruct st.
  - cbn [report_upload_failures filter].
    destruct (negb (ir_succeeded res)).
    + unfold_monad. rewrite IH. cbn [world trace length map].
      rewrite <- app_assoc, <- Nat.add_assoc. reflexivity.
    + apply IH.
Qed.

(** X10. Uploading never raises and sends the documents in one request.
    When the request is answered, the number of documents is printed, then
    one message for every document the index refused, then either that all
    succeeded (when none was refused) or the number of refusals; when the
    request raises, only the error is printed. *)
Theorem _upload_jsx_to_search_index_report (documents : list Document)
    (st : St W) :
  _upload_jsx_to_search_index S documents st
  = (Return tt,
     {| world := snd (upload_documents S documents (world st));
        trace :=
          trace st ++ Called (CallUpload documents)
          :: match fst (upload_documents S documents (world st)) with
             | Return result =>
                 Printed (MsgUploadDone (length documents))
                 :: upload_failure_messages result
                 ++ [ Printed
                        (if forallb ir_succeeded result
                         then MsgUploadAllSucceeded
                         else MsgUploadFailedCount
                                (length (filter (fun res =>
                                                   negb (ir_succeeded res))
                                           result))) ]
             | Raise e => [Printed (MsgUploadError e)]
             end |}).
Proof.
  unfold _upload_jsx_to_search_index. unfold_monad.
  destruct (upload_documents S documents (world st)) as [[result|e] w'];
    cbn [fst snd].
  - rewrite report_upload_failures_spec. cbn [world trace Nat.add].
    assert (Hall :
      (length (filter (fun res => negb (ir_succeeded res)) result) =? 0)
      = forallb ir_succeeded result).
    { induction result as [|res result IH]; [reflexivity|].
      cbn [filter forallb]. destruct (ir_succeeded res); cbn [negb andb];
        [exact IH | reflexivity]. }
    rewrite Hall.
    destruct (forallb ir_succeeded result); cbn [world trace];
      rewrite <- !app_assoc; reflexivity.
  - cbn [world trace]. rewrite <- !app_assoc. reflexivity.
Qed.

End ServiceFacts.

(** ** Documents and requests of the batch *)

Section IngestionFacts.
Variable L : PyLib.
Variable FS : FileSystem.
Variable W : Type.
Variable S : Services W.

Lemma _analyze_jsx_component_requests (jsx_path jsx_file : pystr)
    (st : St W) :
  match read_text FS jsx_path with
  | Return jsx_code =>
      exists document st',
        _analyze_jsx_component L FS S jsx_path jsx_file st
        = (Return (Some document), st')
        /\ requests (trace st')
           = requests (trace st)
             ++ [CallEmbed
                   (_create_jsx_embedding_text
                      (_extract_jsx_patterns L jsx_code
                         (replace (py ".jsx") [] jsx_file)))
                   embedding_model]
  | Raise e =>
      _analyze_jsx_component L FS S jsx_path jsx_file st
      = (Return None,
         {| world := world st;
            trace := trace st ++ [Printed (MsgAnalysisError jsx_file e)] |})
  end.
Proof.
  unfold _analyze_jsx_component.
  destruct (read_text FS jsx_path) as [jsx_code|e].
  - unfold_monad.
    match goal with
    | |- context [_create_jsx_embedding S ?t st] =>
        destruct (_create_jsx_embedding_total S t st)
          as [vector [ext [st' [Hrun [Htrace Hext]]]]]
    end.
    rewrite Hrun. eexists _, st'. split; [reflexivity|].
    rewrite Htrace, requests_app. cbn [requests].
    destruct Hext as [-> | [e ->]]; reflexivity.
  - unfold_monad. reflexivity.
Qed.

(** X11. For a file that can be read a document is always assembled,
    whatever the embedding provider does: its id is the key of the file name
    without [.jsx], it carries the text of the file, the category and the
    image count of the extractors, and as its vector the first embedding of
    the provider or, when the provider fails, 1536 zeros.  For a file that
    cannot be read nothing is sent to the services. *)
Theorem _analyze_jsx_component_outcome (jsx_path jsx_file : pystr)
    (st : St W) :
  match read_text FS jsx_path with
  | Return jsx_code =>
      let component_name := replace (py ".jsx") [] jsx_file in
      let embedding_text :=
        _create_jsx_embedding_text
          (_extract_jsx_patterns L jsx_code component_name) in
      let answer :=
        embeddings_create S embedding_text embedding_model (world st) in
      exists document st',
        _analyze_jsx_component L FS S jsx_path jsx_file st
        = (Return (Some document), st')
        /\ world st' = snd answer
        /\ requests (trace st')
           = requests (trace st) ++ [CallEmbed embedding_text embedding_model]
        /\ doc_id document = _create_safe_jsx_key component_name
        /\ doc_component_name document = component_name
        /\ doc_jsx_code document = jsx_code
        /\ doc_component_category document
           = category_str
               (_classify_component_category L component_name jsx_code)
        /\ doc_image_count document = count (py "<img") jsx_code
        /\ doc_embedding_text document = embedding_text
        /\ doc_jsx_vector document
           = match fst answer with
             | Return (embedding :: _) => embedding
             | _ => repeat 0%float 1536
             end
  | Raise e =>
      _analyze_jsx_component L FS S jsx_path jsx_file st
      = (Return None,
         {| world := world st;
            trace := trace st ++ [Printed (MsgAnalysisError jsx_file e)] |})
  end.
Proof.
  unfold _analyze_jsx_component.
  destruct (read_text FS jsx_path) as [jsx_code|e].
  - cbv zeta. unfold _create_jsx_embedding. unfold_monad.
    destruct (embeddings_create S
                (_create_jsx_embedding_text
                   (_extract_jsx_patterns L jsx_code
                      (replace (py ".jsx") [] jsx_file)))
                embedding_model (world st))
      as [[[|embedding data]|e] w']; cbn [fst snd];
      eexists _, _; (split; [reflexivity|]);
      cbn [world trace doc_id doc_component_name doc_jsx_code
           doc_component_category doc_image_count doc_embedding_text
           doc_jsx_vector];
      repeat (rewrite ?requests_app; cbn [requests app]);
      rewrite ?app_nil_r; repeat split.
  - unfold_monad. reflexivity.
Qed.

Lemma process_jsx_file_requests (components_folder jsx_file : pystr)
    (all_documents : list Document) (st : St W) :
  exists new st',
    process_jsx_file L FS S components_folder jsx_file all_documents st
    = (Return (all_documents ++ new), st')
    /\ length new
       = length (filter (readable FS components_folder) [jsx_file])
    /\ requests (trace st')
       = requests (trace st)
         ++ map (embed_request_of L FS components_folder)
              (filter (readable FS components_folder) [jsx_file]).
Proof.
  unfold process_jsx_file. unfold_monad.
  pose proof (_analyze_jsx_component_requests
                (os_path_join FS components_folder jsx_file) jsx_file
                {| world := world st;
                   trace := trace st ++ [Printed (MsgProcessing jsx_file)] |})
    as Hspec.
  cbn [filter]. unfold embed_request_of.
  assert (Hreadable :
    readable FS components_folder jsx_file
    = match read_text FS (os_path_join FS components_folder jsx_file) with
      | Return _ => true
      | Raise _ => false
      end) by reflexivity.
  assert (Htext :
    file_text FS components_folder jsx_file
    = match read_text FS (os_path_join FS components_folder jsx_file) with
      | Return text => text
      | Raise _ => []
      end) by reflexivity.
  destruct (read_text FS (os_path_join FS components_folder jsx_file))
    as [text|e]; rewrite Hreadable.
  - destruct Hspec as [document [st' [Hrun Hreq]]].
    rewrite Hrun. eexists [document], _. split; [reflexivity|].
    split; [reflexivity|]. cbn [trace map]. rewrite Htext.
    rewrite requests_app, Hreq. cbn [trace requests].
    rewrite requests_app. cbn [requests]. now rewrite !app_nil_r.
  - rewrite Hspec. eexists [], _. rewrite app_nil_r.
    split; [reflexivity|]. split; [reflexivity|]. cbn [trace map].
    rewrite !requests_app. cbn [requests]. now rewrite !app_nil_r.
Qed.

Lemma process_jsx_files_requests (components_folder : pystr)
    (jsx_files : list pystr) :
  forall (all_documents : list Document) (st : St W),
  exists new st',
    process_jsx_files L FS S components_folder jsx_files all_documents st
    = (Return (all_documents ++ new), st')
    /\ length new
       = length (filter (readable FS components_folder) jsx_files)
    /\ requests (trace st')
       = requests (trace st)
         ++ map (embed_request_of L FS components_folder)
              (filter (readable FS components_folder) jsx_files).
Proof.
  induction jsx_files as [|jsx_file jsx_files IH]; intros all_documents st.
  - exists [], st. cbn. rewrite ?app_nil_r. repeat split.
  - cbn [process_jsx_files]. unfold bind.
    destruct (process_jsx_file_requests components_folder jsx_file
                all_documents st) as [new1 [st1 [Hrun1 [Hlen1 Hreq1]]]].
    rewrite Hrun1.
    destruct (IH (all_documents ++ new1) st1)
      as [new2 [st2 [Hrun2 [Hlen2 Hreq2]]]].
    rewrite Hrun2. exists (new1 ++ new2), st2.
    rewrite app_assoc. split; [reflexivity|].
    change (jsx_file :: jsx_files) with ([jsx_file] ++ jsx_files).
    rewrite filter_app, map_app, !length_app, Hlen1, Hlen2.
    split; [reflexivity|]. now rewrite Hreq2, Hreq1, <- app_assoc.
Qed.

Lemma _get_jsx_document_count_requests (st : St W) :
  exists total st',
    _get_jsx_document_count S st = (Return total, st')
    /\ requests (trace st') = requests (trace st) ++ [CallSearch count_request].
Proof.
  unfold _get_jsx_document_count. unfold_monad.
  change {| req_search_text := Some (py "*"); req_top := 0;
            req_include_total_count := true; req_vector_queries := [];
            req_select := []; req_filter := None |} with count_request.
  destruct (search S count_request (world st)) as [[results|e] w'];
    [destruct (sr_count results)|];
    eexists _, _; (split; [reflexivity|]); cbn [trace];
    repeat (rewrite ?requests_app; cbn [requests app]);
    now rewrite ?app_nil_r.
Qed.

Lemma _upload_jsx_to_search_index_requests (documents : list Document)
    (st : St W) :
  exists st',
    _upload_jsx_to_search_index S documents st = (Return tt, st')
    /\ requests (trace st')
       = requests (trace st) ++ [CallUpload documents].
Proof.
  unfold _upload_jsx_to_search_index. unfold_monad.
  destruct (upload_documents S documents (world st)) as [[result|e] w'].
  - rewrite report_upload_failures_spec. cbn [world trace].
    assert (Hmsgs : requests (upload_failure_messages result) = []).
    { unfold upload_failure_messages.
      induction (filter (fun res => negb (ir_succeeded res)) result);
        [reflexivity | assumption]. }
    destruct (_ =? 0); eexists; (split; [reflexivity|]); cbn [trace];
      repeat (rewrite ?requests_app; cbn [requests app]);
      now rewrite Hmsgs, ?app_nil_r.
  - eexists. split; [reflexivity|]. cbn [trace].
    repeat (rewrite ?requests_app; cbn [requests app]).
    now rewrite ?app_nil_r.
Qed.

Lemma ingest_jsx_files_requests (components_folder : pystr)
    (jsx_files : list pystr) (st : St W) :
  exists documents st',
    ingest_jsx_files L FS S components_folder jsx_files st = (Return tt, st')
    /\ length documents
       = length (filter (readable FS components_folder) jsx_files)
    /\ requests (trace st')
       = requests (trace st)
         ++ map (embed_request_of L FS components_folder)
              (filter (readable FS components_folder) jsx_files)
         ++ match documents with
            | [] => []
            | _ :: _ => [CallUpload documents; CallSearch count_request]
            end.
Proof.
  unfold ingest_jsx_files. unfold bind at 1. unfold print at 1.
  unfold bind at 1.
  match goal with
  | |- context [process_jsx_files L FS S components_folder jsx_files [] ?s] =>
      destruct (process_jsx_files_requests components_folder jsx_files [] s)
        as [documents [st1 [Hrun [Hlen Hreq]]]]; rewrite Hrun
  end.
  cbn [app trace world] in *. rewrite requests_app in Hreq.
  cbn [requests] in Hreq. rewrite app_nil_r in Hreq.
  destruct documents as [|d documents].
  - unfold print. eexists [], _. split; [reflexivity|].
    split; [exact Hlen|]. cbn [trace]. rewrite requests_app, Hreq.
    cbn [requests]. now rewrite !app_nil_r.
  - unfold bind at 1.
    destruct (_upload_jsx_to_search_index_requests (d :: documents) st1)
      as [st2 [Hup Hreq2]].
    rewrite Hup. unfold bind at 1. unfold print at 1. unfold bind at 1.
    match goal with
    | |- context [_get_jsx_document_count S ?s] =>
        destruct (_get_jsx_document_count_requests s)
          as [final_count [st3 [Hcount Hreq3]]]; rewrite Hcount
    end.
    unfold print. eexists (d :: documents), _. split; [reflexivity|].
    split; [exact Hlen|]. cbn [trace] in *.
    rewrite requests_app, Hreq3.
    repeat (rewrite ?requests_app; cbn [requests app]).
    rewrite Hreq2, Hreq, <- !app_assoc. cbn [app].
    now rewrite ?app_nil_r.
Qed.

End IngestionFacts.

Section ProcessFacts.
Variable L : PyLib.
Variable FS : FileSystem.
Variable W : Type.
Variable S : Services W.

(** X12. A batch sends one embedding request for every file that can be
    read, in the order of the files, and none for a file that cannot; after
    them it sends one upload with as many documents as files were read and
    one request for the number of documents, or, when no file could be read,
    nothing more. *)
Theorem process_jsx_components_requests (components_folder : pystr)
    (names : list pystr) (st st0 : St W) :
  os_path_exists FS components_folder = true ->
  initialize_jsx_search_index S st = (Return false, st0) ->
  os_listdir FS components_folder = Return names ->
  let jsx_files := filter (ends_with (py ".jsx")) names in
  jsx_files <> [] ->
  let good := filter (readable FS components_folder) jsx_files in
  exists documents st',
    process_jsx_components L FS S components_folder st = (Return tt, st')
    /\ length documents = length good
    /\ requests (trace st')
       = requests (trace st0)
         ++ map (embed_request_of L FS components_folder) good
         ++ match documents with
            | [] => []
            | _ :: _ => [CallUpload documents; CallSearch count_request]
            end.
Proof.
  intros Hexists Hinit Hlist jsx_files Hfiles good.
  unfold process_jsx_components. rewrite Hexists. cbn [negb].
  unfold bind at 1. rewrite Hinit. unfold bind at 1. unfold print at 1.
  unfold bind at 1. unfold lift_res. rewrite Hlist. fold jsx_files.
  rewrite (@match_nonempty _ _ jsx_files _ _ Hfiles).
  match goal with
  | |- context [ingest_jsx_files L FS S components_folder jsx_files ?s] =>
      destruct (ingest_jsx_files_requests L FS S components_folder jsx_files s)
        as [documents [st' [Hrun [Hlen Hreq]]]]
  end.
  exists documents, st'. split; [exact Hrun|]. split; [exact Hlen|].
  rewrite Hreq. cbn [trace]. rewrite requests_app. cbn [requests].
  now rewrite app_nil_r.
Qed.

(** X13. When the index exists and a search finds a document in it, the
    batch ends at once: whatever the folder holds, the only requests are the
    look-up of the index and that search; nothing is embedded and nothing
    uploaded. *)
Theorem process_jsx_components_skips_existing_data
    (components_folder : pystr) (st : St W) (w1 w2 : W)
    (results : SearchResults) :
  os_path_exists FS components_folder = true ->
  get_index S jsx_index_name (world st) = (Return tt, w1) ->
  search S has_data_request w1 = (Return results, w2) ->
  sr_rows results <> [] ->
  exists st',
    process_jsx_components L FS S components_folder st = (Return tt, st')
    /\ world st' = w2
    /\ requests (trace st')
       = requests (trace st)
         ++ [CallGetIndex jsx_index_name; CallSearch has_data_request].
Proof.
  intros Hexists Hget Hsearch Hrows.
  unfold process_jsx_components. rewrite Hexists. cbn [negb].
  destruct (initialize_jsx_search_index_cases S st)
    as [answer [st0 [Hinit Hcases]]].
  rewrite Hget, Hsearch in Hcases. cbn [fst snd] in Hcases.
  destruct Hcases as [Hworld [Hreq Hanswer]].
  destruct (sr_rows results); [contradiction|]. subst answer.
  unfold bind. rewrite Hinit. unfold print.
  eexists. split; [reflexivity|]. cbn [world trace].
  split; [exact Hworld|]. rewrite requests_app, Hreq. cbn [requests].
  now rewrite app_nil_r.
Qed.

(** X14. When the folder exists and the index holds no data but listing the
    folder raises (the path is a plain file, say, or may not be read), the
    exception reaches the caller of [process_jsx_components]. *)
Theorem process_jsx_components_listing_error (components_folder : pystr)
    (st st0 : St W) (e : PyExc) :
  os_path_exists FS components_folder = true ->
  initialize_jsx_search_index S st = (Return false, st0) ->
  os_listdir FS components_folder = Raise e ->
  process_jsx_components L FS S components_folder st
  = (Raise e,
     {| world := world st0;
        trace := trace st0 ++ [Printed MsgProcessingStart] |}).
Proof.
  intros Hexists Hinit Hlist.
  unfold process_jsx_components. rewrite Hexists. cbn [negb].
  unfold bind at 1. rewrite Hinit. unfold bind at 1. unfold print at 1.
  unfold bind at 1. unfold lift_res. now rewrite Hlist.
Qed.

Lemma process_jsx_components_requests_cases
    (components_folder : pystr) (st : St W) :
  exists new,
    requests (trace (snd (process_jsx_components L FS S components_folder st)))
    = requests (trace st) ++ new
    /\ (existsb (fun c => is_embed c || is_upload c) new = true ->
        os_path_exists FS components_folder = true
        /\ fst (initialize_jsx_search_index S st) = Return false
        /\ exists names,
             os_listdir FS components_folder = Return names
             /\ filter (ends_with (py ".jsx")) names <> []).
Proof.
  unfold process_jsx_components.
  destruct (os_path_exists FS components_folder) eqn:Hexists; cbn [negb].
  2:{ exists []. unfold print. cbn [snd trace]. rewrite requests_app.
      cbn [requests]. split; [reflexivity | discriminate]. }
  destruct (initialize_jsx_search_index_cases S st)
    as [answer [st0 [Hinit Hcases]]].
  assert (Hquiet : exists init,
    requests (trace st0) = requests (trace st) ++ init
    /\ existsb (fun c => is_embed c || is_upload c) init = false).
  { destruct (get_index S jsx_index_name (world st)) as [[[]|e] w1];
      destruct Hcases as [_ [Hreq _]]; eexists; (split; [exact Hreq|]);
      reflexivity. }
  destruct Hquiet as [init [Hreq0 Hquiet]].
  unfold bind at 1. rewrite Hinit. cbn [fst].
  destruct answer.
  { exists init. unfold print. cbn [snd trace]. rewrite requests_app, Hreq0.
    cbn [requests]. rewrite app_nil_r. split; [reflexivity|].
    rewrite Hquiet. discriminate. }
  unfold bind at 1. unfold print at 1. unfold bind at 1. unfold lift_res.
  destruct (os_listdir FS components_folder) as [names|e] eqn:Hlist.
  2:{ exists init. cbn [snd trace]. rewrite requests_app, Hreq0.
      cbn [requests]. rewrite app_nil_r. split; [reflexivity|].
      rewrite Hquiet. discriminate. }
  destruct (filter (ends_with (py ".jsx")) names) as [|f files] eqn:Hfiles.
  { exists init. unfold print. cbn [snd trace]. rewrite !requests_app, Hreq0.
    cbn [requests]. rewrite !app_nil_r. split; [reflexivity|].
    rewrite Hquiet. discriminate. }
  match goal with
  | |- context [ingest_jsx_files L FS S components_folder (f :: files) ?s] =>
      destruct (ingest_jsx_files_requests L FS S components_folder
                  (f :: files) s)
        as [documents [st' [Hrun [_ Hreq]]]]; rewrite Hrun
  end.
  cbn [snd trace] in *. rewrite requests_app, Hreq0 in Hreq.
  cbn [requests] in Hreq. rewrite app_nil_r, <- app_assoc in Hreq.
  eexists. split; [exact Hreq|]. intros _.
  split; [reflexivity|]. split; [reflexivity|].
  exists names. split; [reflexivity|]. rewrite Hfiles. discriminate.
Qed.

(** X15. The batch embeds or uploads something only when the folder exists,
    the initialisation of the index answers [False] and the folder lists at
    least one [.jsx] file; in every other case (missing folder, index with
    data, listing error, no component file) neither provider is asked to
    embed or to store anything. *)
Theorem process_jsx_components_contacts_providers_only_to_ingest
    (components_folder : pystr) (st : St W) (new : list Call) :
  requests (trace (snd (process_jsx_components L FS S components_folder st)))
  = requests (trace st) ++ new ->
  existsb (fun c => is_embed c || is_upload c) new = true ->
  os_path_exists FS components_folder = true
  /\ fst (initialize_jsx_search_index S st) = Return false
  /\ exists names,
       os_listdir FS components_folder = Return names
       /\ filter (ends_with (py ".jsx")) names <> [].
Proof.
  intros Hreq Hnew.
  destruct (process_jsx_components_requests_cases components_folder st)
    as [new' [Hreq' H]].
  rewrite Hreq' in Hreq. apply app_inv_head in Hreq. subst new'.
  now apply H.
Qed.

End ProcessFacts.

Lemma process_jsx_components_requests_witness :
  let components_folder := py "components" in
  let names :=
    [py "HeroBanner.jsx"; py "Locked.jsx"; py "README.md"; py "Binary.jsx"] in
  let st0 := snd (initialize_jsx_search_index demo_services empty_index) in
  let good :=
    filter (readable demo_fs components_folder)
      (filter (ends_with (py ".jsx")) names) in
  exists documents st',
    process_jsx_components plain_lib demo_fs demo_services components_folder
      empty_index
    = (Return tt, st')
    /\ length documents = length good
    /\ requests (trace st')
       = requests (trace st0)
         ++ map (embed_request_of plain_lib demo_fs components_folder) good
         ++ match documents with
            | [] => []
            | _ :: _ => [CallUpload documents; CallSearch count_request]
            end.
Proof.
  refine (@process_jsx_components_requests plain_lib demo_fs _ demo_services
            (py "components")
            [py "HeroBanner.jsx"; py "Locked.jsx"; py "README.md";
             py "Binary.jsx"]
            empty_index
            (snd (initialize_jsx_search_index demo_services empty_index))
            eq_refl eq_refl eq_refl _).
  discriminate.
Defined.

Lemma process_jsx_components_skips_existing_data_witness :
  exists st',
    process_jsx_components plain_lib demo_fs demo_services (py "components")
      hero_index
    = (Return tt, st')
    /\ world st' = hero_document
    /\ requests (trace st')
       = requests (trace hero_index)
         ++ [CallGetIndex jsx_index_name; CallSearch has_data_request].
Proof.
  refine (@process_jsx_components_skips_existing_data plain_lib demo_fs _
            demo_services (py "components") hero_index hero_document
            hero_document
            {| sr_rows := map row_of_document hero_document;
               sr_count := Some 1%Z |}
            eq_refl eq_refl eq_refl _).
  vm_compute. discriminate.
Defined.

(** A folder that is in fact a plain file. *)
Lemma process_jsx_components_listing_error_witness :
  let plain_file_fs :=
    {| os_path_exists := fun _ => true;
       os_listdir := fun _ => Raise (OSError (py "not a directory"));
       os_path_join := os_path_join demo_fs;
       read_text := read_text demo_fs |} in
  process_jsx_components plain_lib plain_file_fs demo_services
    (py "components.txt") empty_index
  = (Raise (OSError (py "not a directory")),
     {| world := [];
        trace :=
          trace (snd (initialize_jsx_search_index demo_services empty_index))
          ++ [Printed MsgProcessingStart] |}).
Proof.
  exact (@process_jsx_components_listing_error plain_lib
           {| os_path_exists := fun _ => true;
              os_listdir := fun _ => Raise (OSError (py "not a directory"));
              os_path_join := os_path_join demo_fs;
              read_text := read_text demo_fs |}
           _ demo_services (py "components.txt") empty_index
           (snd (initialize_jsx_search_index demo_services empty_index))
           (OSError (py "not a directory")) eq_refl eq_refl eq_refl).
Defined.

Lemma process_jsx_components_contacts_providers_only_to_ingest_witness :
  os_path_exists demo_fs (py "components") = true
  /\ fst (initialize_jsx_search_index demo_services empty_index)
     = Return false
  /\ exists names,
       os_listdir demo_fs (py "components") = Return names
       /\ filter (ends_with (py ".jsx")) names <> [].
Proof.
  apply (@process_jsx_components_contacts_providers_only_to_ingest plain_lib
           demo_fs _ demo_services (py "components") empty_index
           (requests
              (trace (snd (process_jsx_components plain_lib demo_fs
                             demo_services (py "components") empty_index))))).
  - reflexivity.
  - vm_compute. reflexivity.
Defined.

(** ** Hits of a search *)

Lemma row_getitem_spec (key : pystr) (row : Row) :
  row_getitem key row
  = if row_has key row then Return (row_get key VNone row)
    else Raise (KeyError key).
Proof.
  induction row as [|[k v] row IH]; [reflexivity|].
  cbn [row_getitem row_has existsb row_get fst].
  destruct (PyStr.eqb k key); [reflexivity | exact IH].
Qed.

Lemma row_get_default (key : pystr) (d1 d2 : pyval) (row : Row) :
  row_has key row = true -> row_get key d1 row = row_get key d2 row.
Proof.
  induction row as [|[k v] row IH]; [discriminate|].
  cbn [row_has existsb row_get fst].
  destruct (PyStr.eqb k key); [reflexivity | exact IH].
Qed.

Lemma component_data_of_spec (row : Row) :
  if complete_hit row
  then exists data,
         component_data_of row = Return data
         /\ cd_id data = row_get (py "id") VNone row
         /\ cd_component_name data = row_get (py "component_name") VNone row
         /\ cd_score data = row_get (py "@search.score") (VFloat 0%float) row
  else exists key, In key hit_fields
                   /\ component_data_of row = Raise (KeyError key).
Proof.
  unfold complete_hit, hit_fields, component_data_of.
  cbn [forallb]. rewrite !row_getitem_spec.
  repeat match goal with
         | |- context [row_has ?k row] =>
             destruct (row_has k row);
               [cbn [andb res_bind]
               | cbn [andb res_bind]; exists k; split;
                 [cbn [In]; tauto | reflexivity]]
         end.
  eexists. split; [reflexivity|]. repeat split.
Qed.

Lemma collect_components_spec (rows : list Row) :
  forall acc,
    if forallb complete_hit rows
    then exists hits,
           collect_components rows acc = Return (acc ++ hits)
           /\ map cd_id hits = map (row_get (py "id") VNone) rows
           /\ map cd_component_name hits
              = map (row_get (py "component_name") VNone) rows
           /\ map cd_score hits
              = map (row_get (py "@search.score") (VFloat 0%float)) rows
    else exists key, In key hit_fields
                     /\ collect_components rows acc = Raise (KeyError key).
Proof.
  induction rows as [|row rows IH]; intros acc.
  - exists []. rewrite app_nil_r. repeat split.
  - cbn [forallb collect_components].
    pose proof (component_data_of_spec row) as Hrow.
    destruct (complete_hit row); cbn [andb].
    + destruct Hrow as [data [Hdata [Hid [Hname Hscore]]]].
      rewrite Hdata. cbn [res_bind].
      specialize (IH (acc ++ [data])).
      destruct (forallb complete_hit rows).
      * destruct IH as [hits [Hrun [Hids [Hnames Hscores]]]].
        exists (data :: hits). rewrite Hrun, <- app_assoc.
        cbn [app map]. rewrite Hid, Hname, Hscore, Hids, Hnames, Hscores.
        repeat split.
      * exact IH.
    + destruct Hrow as [key [Hin Hraise]]. exists key.
      rewrite Hraise. now split.
Qed.

Lemma slice_to_map (A B : Type) (f : A -> B) (k : Z) (xs : list A) :
  slice_to k (map f xs) = map f (slice_to k xs).
Proof.
  unfold slice_to. rewrite length_map.
  destruct (0 <=? k)%Z; now rewrite firstn_map.
Qed.

Lemma slice_to_length (A : Type) (k : Z) (xs : list A) :
  (0 <= k)%Z -> length (slice_to k xs) <= Z.to_nat k.
Proof.
  intros Hk. unfold slice_to.
  destruct (Z.leb_spec 0 k); [|lia]. apply firstn_le_length.
Qed.

Section SearchOutcome.
Variable W : Type.
Variable S : Services W.

(** What a search does, by the vector it obtained. *)
Lemma search_jsx_components_cases (query_text : pystr)
    (category : option pystr) (image_count : option Z)
    (complexity : option pystr) (top_k : Z) (st : St W) :
  exists vector st1 st',
    _create_jsx_embedding S query_text st = (Return vector, st1)
    /\ requests (trace st1)
       = requests (trace st) ++ [CallEmbed query_text embedding_model]
    /\ search_jsx_components S query_text category image_count complexity
         top_k st
       = (Return
            match
              fst (search S
                     (search_params vector category image_count complexity
                        top_k)
                     (world st1))
            with
            | Return results =>
                match collect_components (sr_rows results) [] with
                | Return jsx_components => slice_to top_k jsx_components
                | Raise _ => []
                end
            | Raise _ => []
            end, st')
    /\ requests (trace st')
       = requests (trace st1)
         ++ [CallSearch
               (search_params vector category image_count complexity top_k)].
Proof.
  destruct (_create_jsx_embedding_total S query_text st)
    as [vector [ext [st1 [Hrun [Htrace Hext]]]]].
  exists vector, st1.
  unfold search_jsx_components. unfold_monad. rewrite Hrun.
  set (request :=
         search_params vector category image_count complexity top_k).
  assert (Hreq1 : requests (trace st1)
                  = requests (trace st)
                    ++ [CallEmbed query_text embedding_model]).
  { rewrite Htrace, requests_app. cbn [requests].
    destruct Hext as [-> | [e ->]]; reflexivity. }
  destruct (search S request (world st1)) as [[results|e] w2]; cbn [fst].
  - destruct (collect_components (sr_rows results) []) as [hits|e];
      eexists; (split; [reflexivity|]); (split; [exact Hreq1|]);
      (split; [reflexivity|]); cbn [trace];
      repeat (rewrite ?requests_app; cbn [requests app]);
      now rewrite ?app_nil_r.
  - eexists. split; [reflexivity|]. split; [exact Hreq1|].
    split; [reflexivity|]. cbn [trace].
    repeat (rewrite ?requests_app; cbn [requests app]).
    now rewrite ?app_nil_r.
Qed.

(** C1, as the code has it.  When the embedding provider raises during a
    search, the search does not raise: the failure is printed, the query
    vector becomes 1536 zeros, the search request is sent with it, and the
    answer is the slice [[:top_k]] of the hits of the index for that
    request, or no hit when the request fails or a hit lacks one of the
    fields read from it.  For a [top_k] that is not negative the answer has
    at most [top_k] hits, and for a positive [top_k] it is empty exactly
    when the request raises, the index answers no hit, or a hit lacks a
    field. *)
Theorem search_with_failing_embedding (query_text : pystr)
    (category : option pystr) (image_count : option Z)
    (complexity : option pystr) (top_k : Z) (st : St W) (e : PyExc) (w1 : W) :
  embeddings_create S query_text embedding_model (world st) = (Raise e, w1) ->
  let request :=
    search_params (repeat 0%float 1536) category image_count complexity top_k in
  exists result ext st',
    search_jsx_components S query_text category image_count complexity top_k st
    = (Return result, st')
    /\ trace st'
       = trace st
         ++ [ Called (CallEmbed query_text embedding_model);
              Printed (MsgEmbeddingFailed e);
              Called (CallSearch request) ] ++ ext
    /\ world st' = snd (search S request w1)
    /\ result
       = match fst (search S request w1) with
         | Return results =>
             match collect_components (sr_rows results) [] with
             | Return jsx_components => slice_to top_k jsx_components
             | Raise _ => []
             end
         | Raise _ => []
         end
    /\ ((0 <= top_k)%Z -> length result <= Z.to_nat top_k)
    /\ ((0 < top_k)%Z ->
        (result = [] <->
         match fst (search S request w1) with
         | Return results =>
             sr_rows results = []
             \/ forallb complete_hit (sr_rows results) = false
         | Raise _ => True
         end)).
Proof.
  intros Hembed request.
  set (result :=
         match fst (search S request w1) with
         | Return results =>
             match collect_components (sr_rows results) [] with
             | Return jsx_components => slice_to top_k jsx_components
             | Raise _ => []
             end
         | Raise _ => []
         end).
  assert (Hrun : exists ext st',
    search_jsx_components S query_text category image_count complexity top_k st
    = (Return result, st')
    /\ trace st'
       = trace st
         ++ [ Called (CallEmbed query_text embedding_model);
              Printed (MsgEmbeddingFailed e);
              Called (CallSearch request) ] ++ ext
    /\ world st' = snd (search S request w1)).
  { subst result.
    unfold search_jsx_components, _create_jsx_embedding. unfold_monad.
    rewrite Hembed. cbn [world trace]. fold request.
    destruct (search S request w1) as [[results|e'] w2]; cbn [fst snd].
    - destruct (collect_components (sr_rows results) []) as [components|e'].
      + eexists [], _. split; [reflexivity|]. cbn [world trace].
        rewrite <- !app_assoc. repeat split.
      + eexists [_], _. split; [reflexivity|]. cbn [world trace].
        rewrite <- !app_assoc. repeat split.
    - eexists [_], _. split; [reflexivity|]. cbn [world trace].
      rewrite <- !app_assoc. repeat split. }
  destruct Hrun as [ext [st' [Hrun [Htrace Hworld]]]].
  exists result, ext, st'.
  split; [exact Hrun|]. split; [exact Htrace|]. split; [exact Hworld|].
  split; [reflexivity|]. subst result.
  destruct (fst (search S request w1)) as [results|e'].
  2:{ split; [cbn; lia | intros _; split; auto]. }
  pose proof (collect_components_spec (sr_rows results) []) as Hcollect.
  destruct (forallb complete_hit (sr_rows results)).
  - destruct Hcollect as [hits [-> [Hids _]]]. cbn [app].
    assert (Hlen : length hits = length (sr_rows results)).
    { apply (f_equal (@length pyval)) in Hids.
      now rewrite !length_map in Hids. }
    split; [apply slice_to_length|]. intros Hk. unfold slice_to.
    destruct (Z.leb_spec 0 top_k); [|lia].
    destruct (Z.to_nat top_k) as [|n] eqn:Hn; [lia|]. split.
    + intros Hempty. left. destruct hits as [|hit hits]; [|discriminate].
      destruct (sr_rows results); [reflexivity | discriminate].
    + intros [Hrows | Hfalse]; [|discriminate].
      rewrite Hrows in Hlen. destruct hits; [reflexivity | discriminate].
  - destruct Hcollect as [key [_ ->]].
    split; [cbn; lia | intros _; split; auto].
Qed.

(** X16. A search never raises, whatever the services do.  It sends one
    embedding request and one search request, and for a [top_k] that is not
    negative it returns at most [top_k] hits. *)
Theorem search_jsx_components_never_raises (query_text : pystr)
    (category : option pystr) (image_count : option Z)
    (complexity : option pystr) (top_k : Z) (st : St W) :
  exists hits vector st',
    search_jsx_components S query_text category image_count complexity
      top_k st
    = (Return hits, st')
    /\ requests (trace st')
       = requests (trace st)
         ++ [ CallEmbed query_text embedding_model;
              CallSearch
                (search_params vector category image_count complexity
                   top_k) ]
    /\ ((0 <= top_k)%Z -> length hits <= Z.to_nat top_k).
Proof.
  destruct (search_jsx_components_cases query_text category image_count
              complexity top_k st)
    as [vector [st1 [st' [_ [Hreq1 [Hrun Hreq]]]]]].
  eexists _, vector, st'. split; [exact Hrun|]. split.
  - rewrite Hreq, Hreq1, <- app_assoc. reflexivity.
  - intros Hk.
    destruct (fst (search S _ (world st1))) as [results|e]; [|cbn; lia].
    destruct (collect_components (sr_rows results) []) as [hits|e];
      [now apply slice_to_length | cbn; lia].
Qed.

(** X17. When the index answers a search with hits, a single hit that
    lacks one of the nine fields read from it makes the search return no hit
    at all; when every hit has them, the search returns the first [top_k]
    hits in the order of the index, the score being 0.0 where the index gave
    none. *)
Theorem search_jsx_components_hits (query_text : pystr)
    (category : option pystr) (image_count : option Z)
    (complexity : option pystr) (top_k : Z) (st st1 : St W)
    (vector : list float) (results : SearchResults) (w2 : W) :
  _create_jsx_embedding S query_text st = (Return vector, st1) ->
  search S (search_params vector category image_count complexity top_k)
    (world st1)
  = (Return results, w2) ->
  let answer :=
    fst (search_jsx_components S query_text category image_count complexity
           top_k st) in
  (forallb complete_hit (sr_rows results) = false -> answer = Return [])
  /\ (forallb complete_hit (sr_rows results) = true ->
      exists hits,
        answer = Return hits
        /\ map cd_id hits
           = slice_to top_k (map (row_get (py "id") VNone) (sr_rows results))
        /\ map cd_component_name hits
           = slice_to top_k
               (map (row_get (py "component_name") VNone) (sr_rows results))
        /\ map cd_score hits
           = slice_to top_k
               (map (row_get (py "@search.score") (VFloat 0%float))
                  (sr_rows results))).
Proof.
  intros Hembed Hsearch answer.
  destruct (search_jsx_components_cases query_text category image_count
              complexity top_k st)
    as [vector' [st1' [st' [Hembed' [_ [Hrun _]]]]]].
  rewrite Hembed in Hembed'. injection Hembed' as <- <-.
  rewrite Hsearch in Hrun. cbn [fst] in Hrun.
  subst answer. rewrite Hrun. cbn [fst].
  pose proof (collect_components_spec (sr_rows results) []) as Hcollect.
  split; intros Hall; rewrite Hall in Hcollect.
  - destruct Hcollect as [key [_ ->]]. reflexivity.
  - destruct Hcollect as [hits [-> [Hids [Hnames Hscores]]]]. cbn [app].
    exists (slice_to top_k hits). split; [reflexivity|].
    now rewrite <- Hids, <- Hnames, <- Hscores, !slice_to_map.
Qed.

(** X19. A recommendation never raises and returns at most three hits.
    Given an image count it searches with a category too, "text_focused"
    for 0, "mixed" for a count up to 2 (negative counts included) and
    "image_focused" above, and the filter sent joins both conditions; an
    empty layout preference adds nothing to the query. *)
Theorem get_jsx_recommendations_outcome (content_description : pystr)
    (image_count : option Z) (layout_preference : option pystr) (st : St W) :
  let query_text :=
    content_description ++ py " layout design component"
    ++ match layout_preference with
       | Some (c :: p) => py " " ++ c :: p
       | _ => []
       end in
  let category :=
    option_map
      (fun n =>
         if (n =? 0)%Z then py "text_focused"
         else if (n <=? 2)%Z then py "mixed"
         else py "image_focused")
      image_count in
  exists hits vector st',
    get_jsx_recommendations S content_description image_count
      layout_preference st
    = (Return hits, st')
    /\ length hits <= 3
    /\ requests (trace st')
       = requests (trace st)
         ++ [ CallEmbed query_text embedding_model;
              CallSearch (search_params vector category image_count None 3) ]
    /\ req_filter (search_params vector category image_count None 3)
       = match category, image_count with
         | Some c, Some n =>
             Some (py "component_category eq '" ++ c
                   ++ py "' and image_count eq " ++ str_of_Z n)
         | _, _ => None
         end.
Proof.
  cbv zeta. unfold get_jsx_recommendations.
  set (category := match image_count with Some n => _ | None => None end).
  set (query := match layout_preference with Some p => _ | None => _ end).
  assert (Hcategory :
    category
    = option_map
        (fun n =>
           if (n =? 0)%Z then py "text_focused"
           else if (n <=? 2)%Z then py "mixed"
           else py "image_focused")
        image_count).
  { subst category. destruct image_count as [n|]; [|reflexivity].
    cbn [option_map]. destruct (n =? 0)%Z; [reflexivity|].
    destruct (n <=? 2)%Z; reflexivity. }
  assert (Hquery :
    query
    = content_description ++ py " layout design component"
      ++ match layout_preference with
         | Some (c :: p) => py " " ++ c :: p
         | _ => []
         end).
  { subst query. destruct layout_preference as [[|c p]|]; cbn [truthy];
      rewrite <- ?app_assoc, ?app_nil_r; reflexivity. }
  rewrite <- Hcategory, <- Hquery.
  destruct (search_jsx_components_cases query category image_count None 3 st)
    as [vector [st1 [st' [_ [Hreq1 [Hrun Hreq]]]]]].
  eexists _, vector, st'. split; [exact Hrun|]. split.
  { destruct (fst (search S _ (world st1))) as [results|e]; [|cbn; lia].
    destruct (collect_components (sr_rows results) []) as [found|e];
      [|cbn; lia].
    apply (@slice_to_length _ 3 found). lia. }
  split; [rewrite Hreq, Hreq1, <- app_assoc; reflexivity|].
  rewrite Hcategory. destruct image_count as [n|]; [|reflexivity].
  cbn [option_map]. unfold search_params, search_filters.
  cbn [req_filter].
  destruct (n =? 0)%Z; [|destruct (n <=? 2)%Z]; cbn [truthy app join];
    rewrite <- ?app_assoc; reflexivity.
Qed.

End SearchOutcome.

Lemma search_with_failing_embedding_witness :
  let query_text := py "magazine layout with images" in
  let request :=
    search_params (repeat 0%float 1536) None None None 3 in
  exists result ext st',
    search_jsx_components embedding_down_services query_text None None None
      3 hero_index
    = (Return result, st')
    /\ trace st'
       = trace hero_index
         ++ [ Called (CallEmbed query_text embedding_model);
              Printed (MsgEmbeddingFailed
                         (ServiceError (py "embedding deployment unavailable")));
              Called (CallSearch request) ] ++ ext
    /\ world st'
       = snd (search embedding_down_services request (world hero_index))
    /\ result
       = match
           fst (search embedding_down_services request (world hero_index))
         with
         | Return results =>
             match collect_components (sr_rows results) [] with
             | Return jsx_components => slice_to 3 jsx_components
             | Raise _ => []
             end
         | Raise _ => []
         end
    /\ ((0 <= 3)%Z -> length result <= Z.to_nat 3)
    /\ ((0 < 3)%Z ->
        (result = [] <->
         match
           fst (search embedding_down_services request (world hero_index))
         with
         | Return results =>
             sr_rows results = []
             \/ forallb complete_hit (sr_rows results) = false
         | Raise _ => True
         end)).
Proof.
  exact (@search_with_failing_embedding _ embedding_down_services
           (py "magazine layout with images") None None None 3 hero_index
           (ServiceError (py "embedding deployment unavailable"))
           hero_document eq_refl).
Defined.


(** X18. A search sends no filter exactly when it is given no category (or
    an empty one), no image count and no complexity (or an empty one): an
    image count of 0 is a condition like any other, an empty string is
    none. *)
Theorem search_filter_presence (vector : list float)
    (category : option pystr) (image_count : option Z)
    (complexity : option pystr) (top_k : Z) :
  (req_filter (search_params vector category image_count complexity top_k)
   = None
   <-> truthy category = false /\ image_count = None
       /\ truthy complexity = false)
  /\ req_filter (search_params vector None (Some 0%Z) None top_k)
     = Some (py "image_count eq 0")
  /\ search_params vector (Some []) image_count (Some []) top_k
     = search_params vector None image_count None top_k.
Proof.
  split; [|split; reflexivity].
  unfold search_params, search_filters. cbn [req_filter].
  destruct category as [[|c category]|], image_count as [n|],
    complexity as [[|x complexity]|];
    cbn [truthy app]; split; intros H; try discriminate; try reflexivity;
    try (repeat split; reflexivity);
    destruct H as [H1 [H2 H3]]; discriminate.
Qed.

(** ** Component names *)

Lemma starts_with_jsx_suffix (c : N) (rest : pystr) :
  starts_with (py ".jsx") (c :: rest ++ py ".jsx")
  = starts_with (py ".jsx") (c :: rest).
Proof.
  change (py ".jsx") with [46%N; 106%N; 115%N; 120%N].
  destruct rest as [|a [|b [|d rest]]]; cbn [app starts_with];
    rewrite ?andb_false_r, ?andb_true_r; reflexivity.
Qed.

Lemma replace_jsx_suffix (stem : pystr) :
  contains (py ".jsx") stem = false ->
  replace (py ".jsx") [] (stem ++ py ".jsx") = stem.
Proof.
  unfold replace. induction stem as [|c stem IH]; intros H.
  - reflexivity.
  - cbn [contains] in H. apply orb_false_iff in H as [Hhere Hlater].
    cbn [app replace_from]. rewrite starts_with_jsx_suffix, Hhere.
    f_equal. now apply IH.
Qed.

(** X20. A file named by a stem followed by [.jsx], the stem itself free of
    [.jsx], passes the selection of component files, the component name
    taken from it is the stem, and the document assembled from it, when it
    can be read, carries the stem as its component name. *)
Theorem component_name_of_jsx_file (stem : pystr) :
  contains (py ".jsx") stem = false ->
  ends_with (py ".jsx") (stem ++ py ".jsx") = true
  /\ replace (py ".jsx") [] (stem ++ py ".jsx") = stem
  /\ (forall (L : PyLib) (FS : FileSystem) (W : Type) (S : Services W)
             (jsx_path text : pystr) (st : St W),
        read_text FS jsx_path = Return text ->
        exists document st',
          _analyze_jsx_component L FS S jsx_path (stem ++ py ".jsx") st
          = (Return (Some document), st')
          /\ doc_component_name document = stem
          /\ doc_jsx_code document = text).
Proof.
  intros H. split; [|split].
  - unfold ends_with. rewrite rev_app_distr. apply starts_with_spec.
    now exists (rev stem).
  - now apply replace_jsx_suffix.
  - intros L FS W S jsx_path text st Hread.
    pose proof (_analyze_jsx_component_spec L FS S jsx_path
                  (stem ++ py ".jsx") st) as Hspec.
    rewrite Hread in Hspec.
    destruct Hspec as [document [ext [st' [Hrun [_ [_ [Hname Hcode]]]]]]].
    exists document, st'. split; [exact Hrun|].
    split; [|exact Hcode]. rewrite Hname. now apply replace_jsx_suffix.
Qed.

Lemma component_name_of_jsx_file_witness :
  ends_with (py ".jsx") (py "HeroBanner" ++ py ".jsx") = true
  /\ replace (py ".jsx") [] (py "HeroBanner" ++ py ".jsx") = py "HeroBanner"
  /\ exists document st',
       _analyze_jsx_component plain_lib demo_fs demo_services
         (py "components/HeroBanner.jsx") (py "HeroBanner" ++ py ".jsx")
         empty_index
       = (Return (Some document), st')
       /\ doc_component_name document = py "HeroBanner"
       /\ doc_jsx_code document
          = py "<div><h1>Title</h1><img src='hero.png'/></div>".
Proof.
  destruct (@component_name_of_jsx_file (py "HeroBanner") eq_refl)
    as [Hends [Hname Hdocument]].
  split; [exact Hends|]. split; [exact Hname|].
  exact (Hdocument plain_lib demo_fs _ demo_services
           (py "components/HeroBanner.jsx")
           (py "<div><h1>Title</h1><img src='hero.png'/></div>")
           empty_index eq_refl).
Defined.

(** A stem that holds [.jsx] loses it as well. *)
Example component_name_loses_inner_jsx :
  replace (py ".jsx") [] (py "Card.jsx.backup.jsx") = py "Card.backup".
Proof. reflexivity. Qed.

Lemma search_jsx_components_never_raises_witness :
  exists hits st',
    search_jsx_components demo_services (py "magazine layout with images")
      None None None 3 hero_index
    = (Return hits, st')
    /\ length hits <= 3.
Proof.
  destruct (search_jsx_components_never_raises demo_services
              (py "magazine layout with images") None None None 3 hero_index)
    as [hits [vector [st' [Hrun [_ Hlen]]]]].
  exists hits, st'. split; [exact Hrun|]. apply Hlen. discriminate.
Defined.

Lemma search_jsx_components_hits_witness :
  exists hits,
    fst (search_jsx_components demo_services
           (py "magazine layout with images") None None None 5 hero_index)
    = Return hits
    /\ map cd_id hits
       = slice_to 5 (map (row_get (py "id") VNone)
                       (map row_of_document hero_document)).
Proof.
  destruct (proj2 (@search_jsx_components_hits _ demo_services
                     (py "magazine layout with images") None None None 5
                     hero_index
                     {| world := hero_document;
                        trace := [Called (CallEmbed
                                            (py "magazine layout with images")
                                            embedding_model)] |}
                     (repeat 0.25%float 1536)
                     {| sr_rows := map row_of_document hero_document;
                        sr_count := Some 1%Z |}
                     hero_document eq_refl eq_refl)
              eq_refl)
    as [hits [Hrun [Hids _]]].
  exists hits. split; [exact Hrun | exact Hids].
Defined.
